(** * xiaomi_parser: models of a brand dump and their IR patterns

    A shallow embedding of [src/xiaomi_parser.py]: the functions
    [load_brand_codes], [build_patterns] and [load_brand_codes_from_dir],
    then [load_devices] and [load_brand_list], over the Python values
    that [json.loads] hands to them.

    Python is dynamically typed, so the embedding works on one type of
    values, [pyval]; every operation the source applies to a value
    (subscription, [in], iteration, [.get], [.items], truth testing, [+])
    is written out for every kind of value, with the exception Python
    raises where the operation does not apply. *)

From Stdlib Require Import PrimFloat FloatOps SpecFloat Ascii.
From stdpp Require Import base option list strings gmap.

Local Open Scope string_scope.
Local Open Scope list_scope.
Local Open Scope Z_scope.

#[local] Set Warnings "-register-all,-clear-no-such-hyp".

(** ** Exceptions and results *)

Inductive exn : Type :=
  | KeyError (key : string)     (* [d[k]] on a dict without the key [k] *)
  | TypeError                   (* operation not supported by the operand *)
  | AttributeError              (* method looked up on a value without it *)
  | AssertionError              (* a failed [assert] *)
  | Raised (name : string).     (* any other exception class, by name *)

Inductive result (A : Type) : Type :=
  | Ok (a : A)
  | Err (e : exn).
Arguments Ok {A} a.
Arguments Err {A} e.

#[global] Instance result_ret : MRet result := fun _ a => Ok a.
#[global] Instance result_bind : MBind result := fun _ _ f m =>
  match m with
  | Ok a => f a
  | Err e => Err e
  end.
#[global] Instance result_fmap : FMap result := fun _ _ f m =>
  match m with
  | Ok a => Ok (f a)
  | Err e => Err e
  end.

(** ** Python values *)

(** The values of a parsed JSON document ([None], booleans, integers,
    floats, strings, lists and dicts) and the [Pattern] objects built from
    them.  A dict is kept as the list of its items in insertion order,
    which is the order [.items()] and iteration follow; its keys are
    strings and pairwise distinct, as in every dict that [json.loads] or a
    dict display of this module builds.  A [Pattern] is an instance of a
    plain class: it is true, and it is neither subscriptable nor a
    container. *)
Inductive pyval : Type :=
  | PNone
  | PBool (b : bool)
  | PInt (z : Z)
  | PFloat (f : float)
  | PStr (s : string)
  | PList (l : list pyval)
  | PDict (d : list (string * pyval))
  | PPattern (ir_code frequency model_id vendor_id id : pyval).

Abbreviation dict := (list (string * pyval)).

(** [d.get(k)] at the level of the item list: the value of the first item
    whose key is [k]. *)
Fixpoint dict_lookup (k : string) (d : dict) : option pyval :=
  match d with
  | [] => None
  | (k', v) :: d' => if String.eqb k k' then Some v else dict_lookup k d'
  end.

(** [d[k] = v]: the value is replaced in place when the key exists, the
    item is added at the end otherwise. *)
Fixpoint dict_set (k : string) (v : pyval) (d : dict) : dict :=
  match d with
  | [] => [(k, v)]
  | (k', v') :: d' =>
      if String.eqb k k' then (k', v) :: d' else (k', v') :: dict_set k v d'
  end.

Definition is_none (v : pyval) : bool :=
  match v with
  | PNone => true
  | _ => false
  end.

Definition is_pattern (v : pyval) : bool :=
  match v with
  | PPattern _ _ _ _ _ => true
  | _ => false
  end.

(** [bool(v)], as tested by [if v:] and [if not v:]. *)
Definition truthy (v : pyval) : bool :=
  match v with
  | PNone => false
  | PBool b => b
  | PInt z => negb (z =? 0)
  | PFloat f => negb (PrimFloat.eqb f PrimFloat.zero)
  | PStr s => negb (String.eqb s "")
  | PList l => match l with [] => false | _ => true end
  | PDict d => match d with [] => false | _ => true end
  | PPattern _ _ _ _ _ => true
  end.

(** [v[k]] for a string [k]. *)
Definition getitem (v : pyval) (k : string) : result pyval :=
  match v with
  | PDict d =>
      match dict_lookup k d with
      | Some x => Ok x
      | None => Err (KeyError k)
      end
  | _ => Err TypeError
  end.

(** [v.get(k, default)]. *)
Definition get (v : pyval) (k : string) (dflt : pyval) : result pyval :=
  match v with
  | PDict d => Ok (default dflt (dict_lookup k d))
  | _ => Err AttributeError
  end.

(** [k in v] for a string [k]: key membership for a dict, membership of
    an element equal to [k] for a list, substring test for a string; the
    other values are not containers. *)
Fixpoint substringb (k s : string) : bool :=
  String.prefix k s ||
  match s with
  | EmptyString => false
  | String _ s' => substringb k s'
  end.

Definition str_equal (k : string) (v : pyval) : bool :=
  match v with
  | PStr s => String.eqb k s
  | _ => false
  end.

Definition contains (k : string) (v : pyval) : result bool :=
  match v with
  | PDict d =>
      Ok (match dict_lookup k d with Some _ => true | None => false end)
  | PList l => Ok (existsb (str_equal k) l)
  | PStr s => Ok (substringb k s)
  | _ => Err TypeError
  end.

(** [for x in v]: the elements of a list, the keys of a dict, the
    characters of a string. *)
Fixpoint chars (s : string) : list pyval :=
  match s with
  | EmptyString => []
  | String c s' => PStr (String c EmptyString) :: chars s'
  end.

Definition iterate (v : pyval) : result (list pyval) :=
  match v with
  | PList l => Ok l
  | PDict d => Ok (map (fun kv => PStr kv.1) d)
  | PStr s => Ok (chars s)
  | _ => Err TypeError
  end.

(** [v.items()]. *)
Definition items (v : pyval) : result dict :=
  match v with
  | PDict d => Ok d
  | _ => Err AttributeError
  end.

(** [v + '_r']. *)
Definition add_str (v : pyval) (suffix : string) : result pyval :=
  match v with
  | PStr s => Ok (PStr (s ++ suffix)%string)
  | _ => Err TypeError
  end.

(** ** load_brand_codes *)

(** A JSON file of the directory: [read_json] is the outcome of
    [json.loads(Path(filename).read_text())], an error when the file
    cannot be read or is not JSON. *)
Record json_file : Type := JsonFile {
  path : string;
  stem : string;
  read_json : result pyval
}.

(** The list comprehension of [parse_others_section]: the iterable
    [json_model["key"].items()] is evaluated first, the dict display once
    per item. *)
Definition other_button (json_model : pyval) (item : string * pyval)
  : result pyval :=
  let '(name, ircode) := item in
  frequency ← getitem json_model "frequency";
  mret (PDict [("id", PStr name); ("ir_zip_key", ircode);
               ("frequency", frequency)]).

Definition other_buttons (json_model : pyval) : result pyval :=
  key ← getitem json_model "key";
  pairs ← items key;
  buttons ← mapM (other_button json_model) pairs;
  mret (PList buttons).

(** The generator, as the list of the pairs it yields. *)
Fixpoint parse_others_loop (section : list pyval)
  : result (list (pyval * pyval)) :=
  match section with
  | [] => mret []
  | json_model :: rest =>
      buttons ← other_buttons json_model;
      source ← getitem json_model "source";
      more ← parse_others_loop rest;
      mret ((buttons, source) :: more)
  end.

Definition parse_others_section (section : pyval)
  : result (list (pyval * pyval)) :=
  elems ← iterate section;
  parse_others_loop elems.

Definition other_model (yielded : pyval * pyval) : pyval :=
  let '(other_buttons, source) := yielded in
  PDict [("buttons", other_buttons); ("source", source)].

(** The first half of [load_brand_codes]: [models] after the "others"
    section. *)
Definition others_models (json_filedata : pyval) : result (list pyval) :=
  data ← getitem json_filedata "data";
  has_others ← contains "others" data;
  if (has_others : bool) then
    data ← getitem json_filedata "data";
    others ← getitem data "others";
    yielded ← parse_others_section others;
    mret (map other_model yielded)
  else mret [].

(** The body of the loop over [tree["nodes"]] for a node with a code. *)
Definition tree_model (json_model : pyval) : result pyval :=
  keyid ← getitem json_model "keyid";
  ir_zip_key ← getitem json_model "ir_zip_key";
  frequency ← getitem json_model "frequency";
  let button := [("id", keyid); ("ir_zip_key", ir_zip_key);
                 ("frequency", frequency)] in
  reverse_code ← get json_model "ir_zip_key_r" PNone;
  let button :=
    if truthy reverse_code then dict_set "ir_zip_key_r" reverse_code button
    else button in
  keysetids ← getitem json_model "keysetids";
  mret (PDict [("buttons", PList [PDict button]); ("keysetids", keysetids)]).

Fixpoint tree_loop (json_models : list pyval) (models : list pyval)
  : result (list pyval) :=
  match json_models with
  | [] => mret models
  | json_model :: rest =>
      has_code ← contains "ir_zip_key" json_model;
      if negb has_code then tree_loop rest models
      else
        model ← tree_model json_model;
        tree_loop rest (models ++ [model])
  end.

(** [load_brand_codes] on the parsed contents of the file.  The [assert]
    statement is executed: assertions are enabled. *)
Definition load_brand_codes_json (json_filedata : pyval)
  : result (list pyval) :=
  models ← others_models json_filedata;
  data ← getitem json_filedata "data";
  tree ← getitem data "tree";
  has_key ← contains "seceret_key" tree;
  if negb has_key then mret models
  else
    seceret_key ← getitem tree "seceret_key";
    if is_none seceret_key then
      json_models ← getitem tree "nodes";
      nodes ← iterate json_models;
      tree_loop nodes models
    else Err AssertionError.

Definition load_brand_codes (filename : json_file) : result (list pyval) :=
  json_filedata ← read_json filename;
  load_brand_codes_json json_filedata.

(** ** build_patterns *)

(** What [LOGGER.error] receives. *)
Inductive log_record : Type :=
  | InvalidFrequency (model : pyval).

Section Build.

(** [process_xiaomi_shit] is imported from [crypt_utils], which is not
    part of this file: any function from a code to the clear payload or
    to the exception it raises. *)
Variable process_xiaomi_shit : pyval -> result pyval.

(** Modelled from the spec: the class [Pattern] is imported from
    [pattern]; its constructor is taken to store its five arguments
    (the payload, the frequency, [model_id], [vendor_id], [id]) in an
    immutable value, [PPattern]. *)
Definition Pattern (ir_code frequency model_id vendor_id id : pyval)
  : pyval :=
  PPattern ir_code frequency model_id vendor_id id.

Definition primary_pattern (model frequency : pyval) : result pyval :=
  ir_zip_key ← getitem model "ir_zip_key";
  ir_code ← process_xiaomi_shit ir_zip_key;
  keysetids ← get model "keysetids" PNone;
  model_id ← get model "_id" keysetids;
  vendor_id ← get model "source" (PStr "mi");
  id ← get model "id" PNone;
  mret (Pattern ir_code frequency model_id vendor_id id).

Definition reverse_pattern (model frequency : pyval) : result pyval :=
  ir_zip_key_r ← getitem model "ir_zip_key_r";
  ir_code ← process_xiaomi_shit ir_zip_key_r;
  button_name ← get model "id" PNone;
  button_name ←
    (if is_none button_name then mret button_name
     else add_str button_name "_r");
  keysetids ← get model "keysetids" PNone;
  model_id ← get model "_id" keysetids;
  vendor_id ← get model "source" (PStr "mi");
  mret (Pattern ir_code frequency model_id vendor_id button_name).

(** One turn of the loop of [build_patterns]: the records logged and
    the list [patterns] after it, or the exception that leaves the
    function. *)
Definition build_model (model : pyval) (patterns : list pyval)
  : list log_record * result (list pyval) :=
  match getitem model "frequency" with
  | Err e => ([], Err e)
  | Ok frequency =>
      if negb (truthy frequency) then ([InvalidFrequency model], Ok patterns)
      else
        ([],
         pattern ← primary_pattern model frequency;
         let patterns := patterns ++ [pattern] in
         has_reverse ← contains "ir_zip_key_r" model;
         if (has_reverse : bool) then
           pattern ← reverse_pattern model frequency;
           mret (patterns ++ [pattern])
         else mret patterns)
  end.

Fixpoint build_patterns_loop (models patterns : list pyval)
  : list log_record * result (list pyval) :=
  match models with
  | [] => ([], Ok patterns)
  | model :: rest =>
      match build_model model patterns with
      | (log, Ok patterns) =>
          let '(log', r) := build_patterns_loop rest patterns in
          (log ++ log', r)
      | (log, Err e) => (log, Err e)
      end
  end.

Definition build_patterns (models : list pyval)
  : list log_record * result (list pyval) :=
  build_patterns_loop models [].

End Build.

(** ** load_brand_codes_from_dir *)

(** What the calls of [print] write. *)
Inductive output : Type :=
  | PrintFile (json_file_path : string) (* [print(json_file, "...", end="")] *)
  | PrintLen (n : nat)                  (* [print(len(temp_models))] *)
  | PrintTotal (total : nat).           (* [print("TOTAL loaded", total)] *)

(** The loop over [Path(directory).glob("*.json")], from the current
    [total] and [models]. *)
Fixpoint dir_loop (files : list json_file) (total : nat)
    (models : gmap string (list pyval))
  : list output * result (nat * gmap string (list pyval)) :=
  match files with
  | [] => ([], Ok (total, models))
  | json_file :: rest =>
      match load_brand_codes json_file with
      | Err e => ([PrintFile (path json_file)], Err e)
      | Ok temp_models =>
          let '(out, r) :=
            dir_loop rest (total + length temp_models)%nat
                     (<[stem json_file := temp_models]> models) in
          (PrintFile (path json_file) :: PrintLen (length temp_models) :: out,
           r)
      end
  end.

(** The directory is given as the files the glob yields, in its order. *)
Definition load_brand_codes_from_dir (directory : list json_file)
  : list output * result (gmap string (list pyval)) :=
  match dir_loop directory 0%nat ∅ with
  | (out, Ok (total, models)) => (out ++ [PrintTotal total], Ok models)
  | (out, Err e) => (out, Err e)
  end.

(** ** The two halves of load_brand_codes, and what they emit *)

(** The second half of [load_brand_codes], run from an empty [models]:
    the models that the tree adds. *)
Definition tree_models (json_filedata : pyval) : result (list pyval) :=
  data ← getitem json_filedata "data";
  tree ← getitem data "tree";
  has_key ← contains "seceret_key" tree;
  if negb has_key then mret []
  else
    seceret_key ← getitem tree "seceret_key";
    if is_none seceret_key then
      json_models ← getitem tree "nodes";
      nodes ← iterate json_models;
      tree_loop nodes []
    else Err AssertionError.

(** An entry of the "others" list with the keys that are read. *)
Definition other_ok (other : pyval) : Prop :=
  exists d key frequency source,
    other = PDict d
    /\ dict_lookup "key" d = Some (PDict key)
    /\ dict_lookup "frequency" d = Some frequency
    /\ dict_lookup "source" d = Some source.

(** The button built for one item of the ["key"] map of an entry. *)
Definition button_emitted (d : dict) (item : string * pyval) (button : pyval)
  : Prop :=
  exists frequency,
    dict_lookup "frequency" d = Some frequency
    /\ button = PDict [("id", PStr item.1); ("ir_zip_key", item.2);
                       ("frequency", frequency)].

(** The model built for one entry of the "others" list: its source and
    one button per item of its ["key"] map, in the order of the map. *)
Definition other_emitted (other model : pyval) : Prop :=
  exists d key source buttons,
    other = PDict d
    /\ dict_lookup "key" d = Some (PDict key)
    /\ dict_lookup "source" d = Some source
    /\ model = PDict [("buttons", PList buttons); ("source", source)]
    /\ Forall2 (button_emitted d) key buttons.

(** The data of a document: no "others" entry, or a list of entries
    with the keys that are read. *)
Definition others_ok (data : dict) : Prop :=
  match dict_lookup "others" data with
  | None => True
  | Some others =>
      exists section, others = PList section /\ Forall other_ok section
  end.

(** The test of the loop over the nodes: ["ir_zip_key" in json_model],
    for a node that is a dict. *)
Definition has_code (node : pyval) : bool :=
  match node with
  | PDict d =>
      match dict_lookup "ir_zip_key" d with Some _ => true | None => false end
  | _ => false
  end.

(** A node of the tree: a dict which, when it has a code, also has the
    keys read with it. *)
Definition node_ok (node : pyval) : Prop :=
  exists d,
    node = PDict d
    /\ (has_code node = true ->
        is_Some (dict_lookup "keyid" d)
        /\ is_Some (dict_lookup "frequency" d)
        /\ is_Some (dict_lookup "keysetids" d)).

(** A value that is false in a test: [None], [False], zero, the empty
    string and the empty containers.  A reverse code is a string or
    [null] in a file, and then it is false exactly when it is [null] or
    empty. *)
Inductive empty_value : pyval -> Prop :=
  | empty_none : empty_value PNone
  | empty_false : empty_value (PBool false)
  | empty_zero : empty_value (PInt 0)
  | empty_float (f : float) :
      PrimFloat.eqb f PrimFloat.zero = true -> empty_value (PFloat f)
  | empty_str : empty_value (PStr "")
  | empty_list : empty_value (PList [])
  | empty_dict : empty_value (PDict []).

(** The items that the reverse code of a node adds to its button: the
    code under ["ir_zip_key_r"] when the node has one that is not empty,
    nothing otherwise. *)
Definition reverse_stored (d : dict) (reverse : dict) : Prop :=
  match dict_lookup "ir_zip_key_r" d with
  | Some reverse_code =>
      (empty_value reverse_code /\ reverse = [])
      \/ (~ empty_value reverse_code
          /\ reverse = [("ir_zip_key_r", reverse_code)])
  | None => reverse = []
  end.

(** The model built for a node with a code: the ["keysetids"] of the
    node and one button with the name, the code and the frequency of the
    node (the frequency is on the button, the model has none), followed
    by the reverse code when it is stored. *)
Definition node_emitted (node model : pyval) : Prop :=
  exists d keyid code frequency keysetids reverse,
    node = PDict d
    /\ dict_lookup "keyid" d = Some keyid
    /\ dict_lookup "ir_zip_key" d = Some code
    /\ dict_lookup "frequency" d = Some frequency
    /\ dict_lookup "keysetids" d = Some keysetids
    /\ reverse_stored d reverse
    /\ model = PDict [("buttons",
                       PList [PDict ([("id", keyid); ("ir_zip_key", code);
                                      ("frequency", frequency)] ++ reverse)]);
                      ("keysetids", keysetids)].

(** The first of the keys read with the code of a node that the node
    does not have, in the order in which they are read. *)
Definition first_missing (d : dict) : option string :=
  List.find
    (fun k => match dict_lookup k d with Some _ => false | None => true end)
    ["keyid"; "frequency"; "keysetids"].

(** A model as [load_brand_codes] builds it: a dict with exactly the two
    keys ["buttons"] and either ["source"] or ["keysetids"]. *)
Definition model_shape (m : pyval) : Prop :=
  exists buttons k v,
    m = PDict [("buttons", buttons); (k, v)]
    /\ (k = "source" \/ k = "keysetids").

(** A file from which [load_brand_codes] returns models, and how many. *)
Definition loads (json_file : json_file) : Prop :=
  exists models, load_brand_codes json_file = Ok models.

Definition models_loaded (json_file : json_file) : nat :=
  match load_brand_codes json_file with
  | Ok models => length models
  | Err _ => 0%nat
  end.

(** What is printed for files that load: the name of each file followed
    by the number of its models, in the order of the files. *)
Definition printed_loaded (files : list json_file) : list output :=
  flat_map (fun f => [PrintFile (path f); PrintLen (models_loaded f)]) files.

(** ** Sample documents

    The brand dump of the docstring of [load_brand_codes], cut down to
    the keys the functions read. *)
Module Samples.

Definition root_node : pyval :=
  PDict [("children_index", PList [PInt 1; PInt 2]); ("frequency", PInt 0);
         ("level", PInt 0); ("parent_index", PInt (-1)); ("index", PInt 0)].

Definition power_node : pyval :=
  PDict [("ir_zip_key", PStr "QJPmll3"); ("keysetids", PList [PStr "xm_1_199"]);
         ("frequency", PInt 37990); ("keyid", PStr "power")].

Definition reverse_node : pyval :=
  PDict [("ir_zip_key_r", PStr "xxr"); ("ir_zip_key", PStr "xxx");
         ("keysetids", PList [PStr "xm_1_4410"]); ("frequency", PInt 37000);
         ("keyid", PStr "power")].

Definition other_3445 : pyval :=
  PDict [("_id", PStr "kk_1_64_3445");
         ("key", PDict [("vol+", PStr "B1"); ("power", PStr "B2")]);
         ("frequency", PInt 38000); ("seceret_key", PNone);
         ("source", PStr "kk")].

Definition tree (seceret_key : pyval) : pyval :=
  PDict [("seceret_key", seceret_key);
         ("nodes", PList [root_node; power_node; reverse_node])].

Definition brand (data : dict) : pyval :=
  PDict [("status", PInt 0); ("data", PDict data); ("encoding", PStr "UTF-8")].

(** A tree and an "others" section. *)
Definition doc_full : pyval :=
  brand [("tree", tree PNone); ("others", PList [other_3445])].
(** A tree only. *)
Definition doc_tree : pyval := brand [("tree", tree PNone)].
(** An "others" section and an empty tree. *)
Definition doc_empty_tree : pyval :=
  brand [("tree", PDict []); ("others", PList [other_3445])].
(** An "others" section and no tree. *)
Definition doc_no_tree : pyval := brand [("others", PList [other_3445])].
(** No ["data"]. *)
Definition doc_no_data : pyval := PDict [("status", PInt 0)].
(** A node with a code and without ["keysetids"], and a tree with it. *)
Definition bare_node : pyval :=
  PDict [("ir_zip_key", PStr "yyy"); ("frequency", PInt 38000);
         ("keyid", PStr "mute")].
Definition doc_bare : pyval :=
  brand [("tree",
          PDict [("seceret_key", PNone);
                 ("nodes", PList [root_node; power_node; bare_node])])].
(** A tree with a key. *)
Definition doc_keyed : pyval := brand [("tree", tree (PStr "0a1b"))].
(** A tree with a key after an "others" entry without ["source"]. *)
Definition doc_keyed_bad_others : pyval :=
  brand [("tree", tree (PStr "0a1b"));
         ("others", PList [PDict [("key", PDict [])]])].

Definition file (name : string) (doc : pyval) : json_file :=
  JsonFile ("brands/" ++ name ++ ".json")%string name (Ok doc).

(** A decryptor for the examples: it raises on the code [bad] and
    returns the code itself as its payload otherwise. *)
Definition decrypt_but (bad : string) (code : pyval) : result pyval :=
  if str_equal bad code then Err (Raised "binascii.Error") else Ok code.

(** The model of the others entry, of the power node and of the node
    with a reverse code, as [load_brand_codes] returns them. *)
Definition model_3445 : pyval :=
  PDict [("buttons",
          PList [PDict [("id", PStr "vol+"); ("ir_zip_key", PStr "B1");
                        ("frequency", PInt 38000)];
                 PDict [("id", PStr "power"); ("ir_zip_key", PStr "B2");
                        ("frequency", PInt 38000)]]);
         ("source", PStr "kk")].

Definition model_power : pyval :=
  PDict [("buttons",
          PList [PDict [("id", PStr "power"); ("ir_zip_key", PStr "QJPmll3");
                        ("frequency", PInt 37990)]]);
         ("keysetids", PList [PStr "xm_1_199"])].

Definition model_reverse : pyval :=
  PDict [("buttons",
          PList [PDict [("id", PStr "power"); ("ir_zip_key", PStr "xxx");
                        ("frequency", PInt 37000);
                        ("ir_zip_key_r", PStr "xxr")]]);
         ("keysetids", PList [PStr "xm_1_4410"])].

(** Models in the layout that [build_patterns] reads: the frequency,
    the codes and the name at the top of the dict. *)
Definition flat (id : string) (frequency : Z) (ir_zip_key : string) : dict :=
  [("id", PStr id); ("ir_zip_key", PStr ir_zip_key);
   ("frequency", PInt frequency); ("keysetids", PList [PStr "xm_1_199"])].

Definition flat_power : pyval := PDict (flat "power" 37990 "QJPmll3").
Definition flat_zero : pyval := PDict (flat "power" 0 "QJPmll3").
Definition flat_negative : pyval := PDict (flat "power" (-38000) "QJPmll3").
Definition flat_corrupt : pyval := PDict (flat "mute" 38000 "!!").
Definition flat_reverse (ir_zip_key_r : string) : pyval :=
  PDict (flat "power" 37000 "xxx" ++ [("ir_zip_key_r", PStr ir_zip_key_r)]).
Definition flat_unnamed : pyval :=
  PDict [("ir_zip_key", PStr "xxx"); ("ir_zip_key_r", PStr "xxr");
         ("frequency", PInt 37000); ("source", PStr "kk")].

Definition pattern (id : pyval) (frequency : Z) (ir_code : string) : pyval :=
  PPattern (PStr ir_code) (PInt frequency) (PList [PStr "xm_1_199"])
           (PStr "mi") id.

End Samples.

(** ** load_devices and load_brand_list *)

(** The dicts that these two functions build are keyed by the ids found
    in the file, which are not strings in general: they are kept as the
    list of their items in insertion order, the keys being compared as
    Python compares the keys of a dict. *)
Abbreviation table := (list (pyval * pyval)).

(** [hash(v)] raises [TypeError] for a list and for a dict. *)
Definition hashable (v : pyval) : bool :=
  match v with
  | PList _ | PDict _ => false
  | _ => true
  end.

(** [f == z] for a float and an integer: the two numbers are compared
    exactly. *)
Definition float_equals_int (f : float) (z : Z) : bool :=
  match Prim2SF f with
  | S754_zero _ => z =? 0
  | S754_finite s m e =>
      let magnitude :=
        if 0 <=? e then Some (Z.pos m * 2 ^ e)
        else if Z.pos m mod 2 ^ (- e) =? 0 then Some (Z.pos m / 2 ^ (- e))
        else None in
      match magnitude with
      | Some a => z =? (if s then - a else a)
      | None => false
      end
  | _ => false
  end.

Definition int_of_bool (b : bool) : Z := if b then 1 else 0.

Definition is_nan (f : float) : bool := negb (PrimFloat.eqb f f).

(** Whether two hashable values are the same key of a dict: [None] is
    itself, booleans, integers and floats are compared as numbers
    ([True] is [1] is [1.0]), strings as strings.  The [NaN] of a parsed
    file is one object, found again by identity.  [Pattern] objects are
    compared by identity; none occurs in a parsed file, and two of them
    are taken as different. *)
Definition key_equal (a b : pyval) : bool :=
  match a, b with
  | PNone, PNone => true
  | PBool x, PBool y => int_of_bool x =? int_of_bool y
  | PBool x, PInt y => int_of_bool x =? y
  | PInt x, PBool y => x =? int_of_bool y
  | PInt x, PInt y => x =? y
  | PBool x, PFloat g => float_equals_int g (int_of_bool x)
  | PFloat f, PBool y => float_equals_int f (int_of_bool y)
  | PInt x, PFloat g => float_equals_int g x
  | PFloat f, PInt y => float_equals_int f y
  | PFloat f, PFloat g => PrimFloat.eqb f g || (is_nan f && is_nan g)
  | PStr s, PStr t => String.eqb s t
  | _, _ => false
  end.

(** [t.get(k)] and [t[k] = v] at the level of the item list; an
    assignment to a key that is present keeps the key and its place. *)
Fixpoint table_lookup (k : pyval) (t : table) : option pyval :=
  match t with
  | [] => None
  | (k', v) :: t' => if key_equal k k' then Some v else table_lookup k t'
  end.

Fixpoint table_set (k v : pyval) (t : table) : table :=
  match t with
  | [] => [(k, v)]
  | (k', v') :: t' =>
      if key_equal k k' then (k', v) :: t' else (k', v') :: table_set k v t'
  end.

Definition setitem (t : table) (k v : pyval) : result table :=
  if hashable k then Ok (table_set k v t) else Err TypeError.

(** [s.replace(old, new)] for two characters.  A string is kept as its
    UTF-8 bytes; the bytes of a character that is not ASCII are all above
    127, so that replacing an ASCII character byte by byte is replacing
    it character by character. *)
Fixpoint replace_char (old new : ascii) (s : string) : string :=
  match s with
  | EmptyString => EmptyString
  | String c s' =>
      String (if Ascii.eqb c old then new else c) (replace_char old new s')
  end.

Definition str_replace (v : pyval) (old new : ascii) : result pyval :=
  match v with
  | PStr s => Ok (PStr (replace_char old new s))
  | _ => Err AttributeError
  end.

(** [[item["name"] for item in info if item["country"] == "EN"]]: the
    comprehension goes through every item of [info]. *)
Fixpoint en_names (info : list pyval) : result (list pyval) :=
  match info with
  | [] => mret []
  | item :: rest =>
      country ← getitem item "country";
      if str_equal "EN" country then
        name ← getitem item "name";
        names ← en_names rest;
        mret (name :: names)
      else en_names rest
  end.

(** [l[0]]. *)
Definition first_item (l : list pyval) : result pyval :=
  match l with
  | x :: _ => Ok x
  | [] => Err (Raised "IndexError")
  end.

Definition en_name (info : pyval) : result pyval :=
  elems ← iterate info;
  names ← en_names elems;
  first_item names.

(** The body of the loop of [load_devices]: the key and the value of the
    assignment [devices[device_id] = {...}]. *)
Definition device_entry (json_device : pyval) : result (pyval * pyval) :=
  info ← getitem json_device "info";
  device_name ← en_name info;
  device_id ← getitem json_device "deviceid";
  name ← str_replace device_name "/"%char "_"%char;
  mret (device_id, PDict [("name", name)]).

(** The body of the loop of [load_brand_list]. *)
Definition brand_entry (brand : pyval) : result (pyval * pyval) :=
  info ← getitem brand "info";
  brand_name ← en_name info;
  brand_id ← getitem brand "brandid";
  device_id ← getitem brand "deviceid";
  mret (brand_id, PDict [("name", brand_name); ("deviceid", device_id)]).

(** The two loops have one shape: an entry is computed from each element
    and assigned in the dict. *)
Fixpoint table_loop (entry : pyval -> result (pyval * pyval))
    (elems : list pyval) (t : table) : result table :=
  match elems with
  | [] => mret t
  | elem :: rest =>
      kv ← entry elem;
      t ← setitem t kv.1 kv.2;
      table_loop entry rest t
  end.

Definition load_devices (filename : json_file) : result table :=
  json_filedata ← read_json filename;
  data ← getitem json_filedata "data";
  json_devices ← iterate data;
  table_loop device_entry json_devices [].

Definition load_brand_list (filename : json_file) : result table :=
  json_filedata ← read_json filename;
  json_brands ← getitem json_filedata "data";
  brands ← iterate json_brands;
  table_loop brand_entry brands [].

(** ** What the lists of brands and devices are made of *)

(** An item of an ["info"] list with the keys that are read: its
    country, and its name when the country is ["EN"]. *)
Definition info_item_ok (item : pyval) : Prop :=
  exists d country,
    item = PDict d
    /\ dict_lookup "country" d = Some country
    /\ (str_equal "EN" country = true -> is_Some (dict_lookup "name" d)).

Definition is_en (item : pyval) : bool :=
  match item with
  | PDict d =>
      match dict_lookup "country" d with
      | Some country => str_equal "EN" country
      | None => false
      end
  | _ => false
  end.

(** [name] is the name of the first item of [info] whose country is
    ["EN"], the items of [info] having the keys that are read. *)
Definition english_name (info name : pyval) : Prop :=
  exists before item after,
    info = PList (before ++ item :: after)
    /\ Forall info_item_ok (before ++ item :: after)
    /\ Forall (fun x => is_en x = false) before
    /\ is_en item = true
    /\ getitem item "name" = Ok name.

(** A brand of the list of brands, with an integer id. *)
Definition brand_ok (brand : pyval) (row : Z * pyval * pyval) : Prop :=
  exists d info,
    brand = PDict d
    /\ dict_lookup "info" d = Some info
    /\ english_name info row.1.2
    /\ dict_lookup "brandid" d = Some (PInt row.1.1)
    /\ dict_lookup "deviceid" d = Some row.2.

(** A device of the list of devices, with an integer id and a name that
    is a string. *)
Definition device_ok (json_device : pyval) (row : Z * string) : Prop :=
  exists d info,
    json_device = PDict d
    /\ dict_lookup "info" d = Some info
    /\ english_name info (PStr row.2)
    /\ dict_lookup "deviceid" d = Some (PInt row.1).

(** A dict whose keys are integers. *)
Definition int_keys (t : table) : Prop :=
  Forall (fun kv => exists z, kv.1 = PInt z) t.

(** The assignments of a loop whose keys are integers, one after the
    other. *)
Definition assign_all (t : table) (kvs : list (Z * pyval)) : table :=
  foldl (fun t kv => table_set (PInt kv.1) kv.2 t) t kvs.

(** ** What the models and the Patterns are made of *)

(** A button of a model of [load_brand_codes]: a name, a code and a
    frequency, then a reverse code that is true when there is one. *)
Definition button_shape (button : pyval) : Prop :=
  exists id code frequency,
    button = PDict [("id", id); ("ir_zip_key", code); ("frequency", frequency)]
    \/ exists reverse_code,
         truthy reverse_code = true
         /\ button = PDict [("id", id); ("ir_zip_key", code);
                           ("frequency", frequency);
                           ("ir_zip_key_r", reverse_code)].

Definition model_schema (model : pyval) : Prop :=
  exists buttons k v,
    model = PDict [("buttons", PList buttons); (k, v)]
    /\ (k = "source" \/ k = "keysetids" /\ length buttons = 1%nat)
    /\ Forall button_shape buttons.

(** The test [if not frequency:] of [build_patterns] on a model. *)
Definition false_frequency (model : pyval) : bool :=
  match getitem model "frequency" with
  | Ok frequency => negb (truthy frequency)
  | Err _ => false
  end.

(** A Pattern whose frequency is true. *)
Definition sound_pattern (p : pyval) : Prop :=
  exists ir_code frequency model_id vendor_id id,
    p = PPattern ir_code frequency model_id vendor_id id
    /\ truthy frequency = true.

(** ** Sample lists

    The list of brands of the docstring of [load_brand_list]. *)
Module BrandSamples.

Definition info (cn en : pyval) : pyval :=
  PList [PDict [("name", cn); ("country", PStr "CN")];
         PDict [("name", en); ("country", PStr "EN")]].

Definition brand (brandid deviceid : Z) (cn en : string) : pyval :=
  PDict [("providers", PList []); ("brandid", PInt brandid);
         ("deviceid", PInt deviceid); ("info", info (PStr cn) (PStr en));
         ("category", PStr "other")].

Definition akira : pyval := brand 1973 1 "aijiale" "Akira".
Definition lloytron : pyval := brand 4207 1 "Lloytron" "Lloytron".
Definition toshiba : pyval := brand 64 1 "dongzhi" "Toshiba".
(** The id of Akira again. *)
Definition akira_again : pyval := brand 1973 10 "aijiale" "Akira/Projector".
(** No English name. *)
Definition unnamed : pyval :=
  PDict [("brandid", PInt 7); ("deviceid", PInt 1);
         ("info",
          PList [PDict [("name", PStr "suoni"); ("country", PStr "CN")]])].
(** An item without country after the English one. *)
Definition half_named : pyval :=
  PDict [("brandid", PInt 8); ("deviceid", PInt 1);
         ("info", PList [PDict [("name", PStr "Sony"); ("country", PStr "EN")];
                         PDict [("name", PStr "suoni")]])].
(** A number as the English name. *)
Definition numbered : pyval :=
  PDict [("brandid", PInt 9); ("deviceid", PInt 3);
         ("info", info (PStr "san") (PInt 3))].

Definition device (deviceid : Z) (cn en : string) : pyval :=
  PDict [("deviceid", PInt deviceid); ("info", info (PStr cn) (PStr en))].

Definition list_file (name : string) (data : list pyval) : json_file :=
  JsonFile (name ++ ".json")%string name
           (Ok (PDict [("status", PInt 0); ("data", PList data);
                       ("encoding", PStr "UTF-8")])).

End BrandSamples.

(** * Properties *)

(** ** The result monad *)

Lemma bind_Ok_inv {A B} (f : A -> result B) (m : result A) (b : B) :
  m ≫= f = Ok b -> exists a, m = Ok a /\ f a = Ok b.
Proof. destruct m as [a|e]; [by exists a | done]. Qed.

(** Splits an equation [m ≫= f = Ok b] of the context into its steps. *)
Ltac bind_inv H :=
  let a := fresh "a" in
  let Ha := fresh "Ha" in
  apply bind_Ok_inv in H as (a & Ha & H).

Lemma mapM_Ok {A B} (f : A -> result B) (g : A -> B) (l : list A) :
  Forall (fun x => f x = Ok (g x)) l -> mapM f l = Ok (map g l).
Proof.
  induction 1 as [|x l Hx _ IH]; [done|].
  cbn. rewrite Hx. cbn. by rewrite IH.
Qed.

(** ** Dicts *)

Lemma getitem_dict (d : dict) (k : string) (v : pyval) :
  getitem (PDict d) k = Ok v <-> dict_lookup k d = Some v.
Proof.
  unfold getitem. destruct (dict_lookup k d); split; congruence.
Qed.

Lemma getitem_Ok_dict (m : pyval) (k : string) (v : pyval) :
  getitem m k = Ok v -> exists d, m = PDict d /\ dict_lookup k d = Some v.
Proof.
  destruct m; try discriminate. intros H. eexists; split; [done|].
  by apply getitem_dict.
Qed.

Lemma getitem_missing (d : dict) (k : string) :
  dict_lookup k d = None -> getitem (PDict d) k = Err (KeyError k).
Proof. unfold getitem. by intros ->. Qed.

(** ** What load_brand_codes returns *)

Lemma other_model_shape (y : pyval * pyval) : model_shape (other_model y).
Proof. destruct y as [b s]. exists b, "source", s. auto. Qed.

Lemma others_models_shape (json_filedata : pyval) (ms : list pyval) :
  others_models json_filedata = Ok ms -> Forall model_shape ms.
Proof.
  unfold others_models. intros H.
  bind_inv H. bind_inv H. destruct a0.
  - bind_inv H. bind_inv H. bind_inv H. injection H as <-.
    apply Forall_forall. intros m Hm.
    apply list_elem_of_In, in_map_iff in Hm as (y & <- & _).
    apply other_model_shape.
  - injection H as <-. constructor.
Qed.

Lemma tree_model_shape (json_model m : pyval) :
  tree_model json_model = Ok m -> model_shape m.
Proof.
  unfold tree_model. intros H. do 5 bind_inv H. injection H as <-.
  eexists _, "keysetids", _. auto.
Qed.

Lemma tree_loop_shape (nodes models ms : list pyval) :
  Forall model_shape models ->
  tree_loop nodes models = Ok ms -> Forall model_shape ms.
Proof.
  revert models.
  induction nodes as [|n nodes IH]; intros models Hms H; cbn in H.
  - by injection H as <-.
  - bind_inv H. destruct a; cbn in H.
    + bind_inv H. eapply IH; [|exact H].
      apply Forall_app; split; [done|].
      constructor; [|constructor]. by eapply tree_model_shape.
    + by eapply IH.
Qed.

Lemma load_brand_codes_json_shape (json_filedata : pyval) (ms : list pyval) :
  load_brand_codes_json json_filedata = Ok ms -> Forall model_shape ms.
Proof.
  unfold load_brand_codes_json. intros H.
  bind_inv H. apply others_models_shape in Ha.
  do 3 bind_inv H. destruct a2; cbn in H.
  - bind_inv H. destruct (is_none a2); [|done].
    do 2 bind_inv H. by eapply tree_loop_shape.
  - by injection H as <-.
Qed.

Lemma load_brand_codes_shape (filename : json_file) (ms : list pyval) :
  load_brand_codes filename = Ok ms -> Forall model_shape ms.
Proof.
  unfold load_brand_codes. intros H. bind_inv H.
  by eapply load_brand_codes_json_shape.
Qed.

Lemma model_shape_no_frequency (m : pyval) :
  model_shape m -> getitem m "frequency" = Err (KeyError "frequency").
Proof. by intros (b & k & v & -> & [-> | ->]). Qed.

Lemma model_shape_not_pattern (m : pyval) :
  model_shape m -> is_pattern m = false.
Proof. by intros (b & k & v & -> & _). Qed.

(** ** The models of load_brand_codes as input of build_patterns *)

(** C1.  [build_patterns] is documented to take the models returned by
    [load_brand_codes], and the claim is that it builds their Patterns.
    It does not: whenever [load_brand_codes] returns at least one model,
    [build_patterns] applied to the returned list raises
    [KeyError('frequency')] on the first model, whatever the decryptor,
    because the models keep the frequency inside their buttons. *)
Theorem build_patterns_rejects_loaded_models
    (decrypt : pyval -> result pyval) (filename : json_file)
    (m : pyval) (ms : list pyval) :
  load_brand_codes filename = Ok (m :: ms) ->
  build_patterns decrypt (m :: ms) = ([], Err (KeyError "frequency")).
Proof.
  intros H. apply load_brand_codes_shape in H.
  apply Forall_cons_1 in H as [Hm _].
  unfold build_patterns. cbn [build_patterns_loop]. unfold build_model.
  by rewrite (model_shape_no_frequency _ Hm).
Qed.

Lemma build_patterns_rejects_loaded_models_witness :
  load_brand_codes (Samples.file "sony" Samples.doc_tree)
  = Ok [Samples.model_power; Samples.model_reverse]
  /\ build_patterns (Samples.decrypt_but "")
       [Samples.model_power; Samples.model_reverse]
     = ([], Err (KeyError "frequency")).
Proof.
  split; [reflexivity|].
  apply (build_patterns_rejects_loaded_models
           (Samples.decrypt_but "") (Samples.file "sony" Samples.doc_tree)).
  reflexivity.
Defined.

(** ** The tree of a document *)

Example load_doc_full :
  load_brand_codes (Samples.file "sony" Samples.doc_full)
  = Ok [Samples.model_3445; Samples.model_power; Samples.model_reverse].
Proof. reflexivity. Qed.

(** [load_brand_codes] runs the "others" half first; what follows it only
    reads the tree. *)
Lemma load_brand_codes_json_others (json_filedata : pyval) (ms : list pyval) :
  others_models json_filedata = Ok ms ->
  load_brand_codes_json json_filedata =
    (data ← getitem json_filedata "data";
     tree ← getitem data "tree";
     has_key ← contains "seceret_key" tree;
     if negb has_key then mret ms
     else
       seceret_key ← getitem tree "seceret_key";
       if is_none seceret_key then
         json_models ← getitem tree "nodes";
         nodes ← iterate json_models;
         tree_loop nodes ms
       else Err AssertionError).
Proof. unfold load_brand_codes_json. by intros ->. Qed.

Lemma load_brand_codes_json_others_Err (json_filedata : pyval) (e : exn) :
  others_models json_filedata = Err e ->
  load_brand_codes_json json_filedata = Err e.
Proof. unfold load_brand_codes_json. by intros ->. Qed.

(** C2, as stated, fails: a document whose data has an "others" section
    and no ["tree"] entry makes [load_brand_codes] raise
    [KeyError('tree')], although the models of the "others" section were
    built. *)
Lemma absent_tree_raises :
  others_models Samples.doc_no_tree = Ok [Samples.model_3445]
  /\ load_brand_codes (Samples.file "sony" Samples.doc_no_tree)
     = Err (KeyError "tree").
Proof. split; reflexivity. Qed.

(** C2, amended.  When the data has a ["tree"] entry in which
    ["seceret_key"] does not occur (an empty tree), [load_brand_codes]
    returns exactly the models built from the "others" section, without
    raising. *)
Theorem empty_tree_returns_others_models
    (filename : json_file) (json_filedata data tree : pyval)
    (models : list pyval) :
  read_json filename = Ok json_filedata ->
  getitem json_filedata "data" = Ok data ->
  getitem data "tree" = Ok tree ->
  contains "seceret_key" tree = Ok false ->
  others_models json_filedata = Ok models ->
  load_brand_codes filename = Ok models.
Proof.
  intros Hread Hdata Htree Hkey Hothers.
  unfold load_brand_codes. rewrite Hread. cbn.
  rewrite (load_brand_codes_json_others _ _ Hothers).
  rewrite Hdata. cbn. rewrite Htree. cbn. by rewrite Hkey.
Qed.

Lemma empty_tree_returns_others_models_witness :
  load_brand_codes (Samples.file "sony" Samples.doc_empty_tree)
  = Ok [Samples.model_3445].
Proof.
  apply (empty_tree_returns_others_models
           (Samples.file "sony" Samples.doc_empty_tree)
           Samples.doc_empty_tree
           (PDict [("tree", PDict []); ("others", PList [Samples.other_3445])])
           (PDict []));
    reflexivity.
Defined.

(** The loop over the nodes only appends to [models]. *)
Lemma tree_loop_app (nodes models : list pyval) :
  tree_loop nodes models = (fun ms => models ++ ms) <$> tree_loop nodes [].
Proof.
  revert models. induction nodes as [|n nodes IH]; intros models; cbn.
  - by rewrite app_nil_r.
  - destruct (contains "ir_zip_key" n) as [[]|e]; cbn; [|apply IH|done].
    destruct (tree_model n) as [m|e]; cbn; [|done].
    rewrite (IH (models ++ [m])), (IH [m]).
    destruct (tree_loop nodes []) as [ms|e]; cbn; [|done].
    by rewrite <- app_assoc.
Qed.

(** [load_brand_codes] is its two halves, one after the other. *)
Lemma load_brand_codes_json_halves (json_filedata : pyval) :
  load_brand_codes_json json_filedata =
    (models ← others_models json_filedata;
     more ← tree_models json_filedata;
     mret (models ++ more)).
Proof.
  unfold load_brand_codes_json, tree_models.
  destruct (others_models json_filedata) as [models|e]; cbn; [|done].
  destruct (getitem json_filedata "data") as [data|e]; cbn; [|done].
  destruct (getitem data "tree") as [tree|e]; cbn; [|done].
  destruct (contains "seceret_key" tree) as [[]|e]; cbn; [| |done].
  - destruct (getitem tree "seceret_key") as [k|e]; cbn; [|done].
    destruct (is_none k); [|done].
    destruct (getitem tree "nodes") as [json_models|e]; cbn; [|done].
    destruct (iterate json_models) as [nodes|e]; cbn; [|done].
    rewrite tree_loop_app. by destruct (tree_loop nodes []).
  - by rewrite app_nil_r.
Qed.

Lemma load_brand_codes_halves
    (filename : json_file) (json_filedata : pyval) (models more : list pyval) :
  read_json filename = Ok json_filedata ->
  others_models json_filedata = Ok models ->
  tree_models json_filedata = Ok more ->
  load_brand_codes filename = Ok (models ++ more).
Proof.
  intros Hread Ho Ht. unfold load_brand_codes. rewrite Hread. cbn.
  rewrite load_brand_codes_json_halves, Ho. cbn. by rewrite Ht.
Qed.

(** ** The "others" section *)

Lemma other_buttons_emitted (d key : dict) (frequency : pyval) :
  dict_lookup "key" d = Some (PDict key) ->
  dict_lookup "frequency" d = Some frequency ->
  exists buttons,
    other_buttons (PDict d) = Ok (PList buttons)
    /\ Forall2 (button_emitted d) key buttons.
Proof.
  intros Hkey Hfreq.
  set (g := fun item : string * pyval =>
              PDict [("id", PStr item.1); ("ir_zip_key", item.2);
                     ("frequency", frequency)]).
  exists (map g key). split.
  - unfold other_buttons. rewrite (proj2 (getitem_dict _ _ _) Hkey). cbn.
    rewrite (mapM_Ok (other_button (PDict d)) g); [done|].
    apply Forall_forall. intros [name ircode] _. unfold other_button.
    by rewrite (proj2 (getitem_dict _ _ _) Hfreq).
  - clear Hkey. induction key as [|item key IH]; cbn; constructor; [|done].
    by exists frequency.
Qed.

Lemma parse_others_loop_emitted (section : list pyval) :
  Forall other_ok section ->
  exists yielded,
    parse_others_loop section = Ok yielded
    /\ Forall2 other_emitted section (map other_model yielded).
Proof.
  induction 1 as [|other section Hok _ (yielded & Hloop & Hall)].
  - exists []. split; [done|constructor].
  - destruct Hok as (d & key & frequency & source & -> & Hkey & Hfreq & Hsrc).
    destruct (other_buttons_emitted d key frequency Hkey Hfreq)
      as (buttons & Hbuttons & Hemit).
    exists ((PList buttons, source) :: yielded). split.
    + cbn [parse_others_loop].
      by rewrite Hbuttons, (proj2 (getitem_dict _ _ _) Hsrc), Hloop.
    + cbn. constructor; [|done]. by exists d, key, source, buttons.
Qed.

(** C5, as stated, fails: an "others" entry with the two keys ["vol+"]
    and ["power"] yields one model, which holds the two buttons, and not
    two models. *)
Lemma others_entry_with_two_keys_yields_one_model :
  load_brand_codes (Samples.file "sony" Samples.doc_empty_tree)
  = Ok [Samples.model_3445]
  /\ length [Samples.model_3445] <> 2%nat.
Proof. split; [reflexivity | discriminate]. Qed.

(** C5, amended.  For a document with an "others" list,
    [load_brand_codes] emits one model per entry of the list, in order
    and before the models of the tree; the model of an entry carries the
    source of the entry and one button per (name, code) pair of its
    ["key"] map, in the order of the map, each button with the name, the
    code and the frequency of the entry. *)
Theorem others_entries_yield_one_model_each
    (filename : json_file) (json_filedata : pyval) (data : dict)
    (section more : list pyval) :
  read_json filename = Ok json_filedata ->
  getitem json_filedata "data" = Ok (PDict data) ->
  dict_lookup "others" data = Some (PList section) ->
  Forall other_ok section ->
  tree_models json_filedata = Ok more ->
  exists models,
    load_brand_codes filename = Ok (models ++ more)
    /\ Forall2 other_emitted section models
    /\ length models = length section.
Proof.
  intros Hread Hdata Hothers Hok Htree.
  destruct (parse_others_loop_emitted section Hok) as (yielded & Hloop & Hall).
  exists (map other_model yielded).
  split; [|split; [done | symmetry; by eapply Forall2_length]].
  apply (load_brand_codes_halves filename json_filedata); [done| |done].
  unfold others_models. rewrite Hdata. cbn. rewrite Hothers. cbn.
  by rewrite Hloop.
Qed.

Lemma others_entries_yield_one_model_each_witness :
  exists models,
    load_brand_codes (Samples.file "sony" Samples.doc_full)
    = Ok (models ++ [Samples.model_power; Samples.model_reverse])
    /\ Forall2 other_emitted [Samples.other_3445] models
    /\ length models = 1%nat.
Proof.
  apply (others_entries_yield_one_model_each
           (Samples.file "sony" Samples.doc_full) Samples.doc_full
           [("tree", Samples.tree PNone);
            ("others", PList [Samples.other_3445])]);
    try reflexivity.
  constructor; [|constructor].
  eexists _, _, _, _. repeat split; reflexivity.
Defined.

(** ** The nodes of the tree *)

(** The test [if reverse_code:] is false exactly on the empty values. *)
Lemma truthy_false_iff (v : pyval) : truthy v = false <-> empty_value v.
Proof.
  split.
  - destruct v as [|[]|z|f|s|[|x l]|[|kv d]|]; cbn; intros H; try done.
    + constructor.
    + constructor.
    + apply negb_false_iff, Z.eqb_eq in H as ->. constructor.
    + apply negb_false_iff in H. by constructor.
    + apply negb_false_iff, String.eqb_eq in H as ->. constructor.
    + constructor.
    + constructor.
  - destruct 1 as [| | |f Hf| | |]; cbn; try done. by rewrite Hf.
Qed.

Lemma tree_model_emitted (d : dict) (keyid code frequency keysetids : pyval) :
  dict_lookup "keyid" d = Some keyid ->
  dict_lookup "ir_zip_key" d = Some code ->
  dict_lookup "frequency" d = Some frequency ->
  dict_lookup "keysetids" d = Some keysetids ->
  exists model,
    tree_model (PDict d) = Ok model /\ node_emitted (PDict d) model.
Proof.
  intros Hid Hcode Hfreq Hks. unfold tree_model, node_emitted, reverse_stored.
  rewrite !(proj2 (getitem_dict _ _ _) Hid),
    !(proj2 (getitem_dict _ _ _) Hcode),
    !(proj2 (getitem_dict _ _ _) Hfreq), !(proj2 (getitem_dict _ _ _) Hks).
  unfold get. cbn [mbind result_bind mret result_ret].
  destruct (dict_lookup "ir_zip_key_r" d) as [reverse_code|] eqn:Hrev;
    cbn [default from_option id].
  - destruct (truthy reverse_code) eqn:Htrue.
    + eexists. split; [reflexivity|].
      exists d, keyid, code, frequency, keysetids,
        [("ir_zip_key_r", reverse_code)].
      rewrite Hrev. do 5 (split; [done|]). split; [|done].
      right. split; [|done]. intros Hempty.
      apply truthy_false_iff in Hempty. congruence.
    + eexists. split; [reflexivity|].
      exists d, keyid, code, frequency, keysetids, [].
      rewrite Hrev. do 5 (split; [done|]). split; [|done].
      left. split; [|done]. by apply truthy_false_iff.
  - eexists. split; [reflexivity|].
    exists d, keyid, code, frequency, keysetids, [].
    rewrite Hrev. by do 6 (split; [done|]).
Qed.

Lemma tree_loop_emitted (nodes : list pyval) :
  Forall node_ok nodes ->
  exists models,
    tree_loop nodes [] = Ok models
    /\ Forall2 node_emitted (List.filter has_code nodes) models.
Proof.
  induction 1 as [|node nodes Hok _ (models & Hloop & Hall)].
  - exists []. split; [done|constructor].
  - destruct Hok as (d & -> & Hkeys).
    cbn [tree_loop List.filter]. unfold contains. fold (has_code (PDict d)).
    cbn [mbind result_bind].
    destruct (has_code (PDict d)) eqn:Hcode; cbn [negb].
    + destruct (Hkeys eq_refl) as ([keyid Hid] & [freq Hfreq] & [ks Hks]).
      assert (exists code, dict_lookup "ir_zip_key" d = Some code) as [code Hc].
      { cbn in Hcode. destruct (dict_lookup "ir_zip_key" d); [eauto|done]. }
      destruct (tree_model_emitted d keyid code freq ks Hid Hc Hfreq Hks)
        as (model & Hmodel & Hemit).
      exists (model :: models). split; [|by constructor].
      rewrite Hmodel. cbn [mbind result_bind app].
      rewrite tree_loop_app, Hloop. done.
    + exists models. by split.
Qed.

(** The loop over the nodes, cut in two. *)
Lemma tree_loop_append (nodes1 nodes2 models : list pyval) :
  tree_loop (nodes1 ++ nodes2) models
  = tree_loop nodes1 models ≫= tree_loop nodes2.
Proof.
  revert models. induction nodes1 as [|n nodes1 IH]; intros models; [done|].
  cbn [app tree_loop].
  destruct (contains "ir_zip_key" n) as [[]|e]; cbn; [|apply IH|done].
  destruct (tree_model n) as [m|e]; cbn; [apply IH|done].
Qed.

(** A node with a code that lacks one of the keys read with it. *)
Lemma tree_model_missing (d : dict) (key : string) :
  has_code (PDict d) = true ->
  first_missing d = Some key ->
  tree_model (PDict d) = Err (KeyError key).
Proof.
  unfold has_code, first_missing, tree_model, getitem, get.
  cbn [List.find].
  destruct (dict_lookup "ir_zip_key" d) as [code|]; [intros _|done].
  destruct (dict_lookup "keyid" d) as [keyid|]; [|by intros [= <-]].
  destruct (dict_lookup "frequency" d) as [frequency|]; [|by intros [= <-]].
  destruct (dict_lookup "keysetids" d) as [keysetids|]; [done|].
  by intros [= <-].
Qed.

(** C9, as stated, fails.  A node may have a code and no ["keysetids"]:
    for the node [{"ir_zip_key", "frequency", "keyid"}] no model is
    emitted, [load_brand_codes] raises [KeyError('keysetids')] and the
    model of the node before it is lost.  And the model of a node that
    has its keys holds the frequency in its button: the model itself has
    no frequency. *)
Lemma node_without_keysetids_raises :
  load_brand_codes (Samples.file "sony" Samples.doc_bare)
  = Err (KeyError "keysetids")
  /\ load_brand_codes (Samples.file "sony" Samples.doc_tree)
     = Ok [Samples.model_power; Samples.model_reverse]
  /\ getitem Samples.model_power "frequency" = Err (KeyError "frequency").
Proof. repeat split; reflexivity. Qed.

(** C9, amended.  For a tree without a key, [load_brand_codes] goes
    through the nodes in order and skips those without ["ir_zip_key"].
    The keys ["keyid"], ["frequency"] and ["keysetids"] of a node with a
    code are read unconditionally.  When every such node has them,
    exactly one model per node with a code is added after the models of
    the "others" section, in the order of the nodes: the model holds the
    ["keysetids"] of the node and a single button with the ["keyid"] of
    the node as its name, its ["ir_zip_key"] as its code and its
    frequency (on the button, not on the model), followed by the reverse
    code exactly when the node has an ["ir_zip_key_r"] that is not empty.
    When a node with a code lacks one of the three keys, after nodes that
    are sound, [KeyError] is raised for the first key that it lacks and
    no model is returned. *)
Theorem tree_nodes_yield_one_model_each
    (filename : json_file) (json_filedata data : pyval) (tree : dict)
    (nodes models : list pyval) :
  read_json filename = Ok json_filedata ->
  getitem json_filedata "data" = Ok data ->
  getitem data "tree" = Ok (PDict tree) ->
  dict_lookup "seceret_key" tree = Some PNone ->
  dict_lookup "nodes" tree = Some (PList nodes) ->
  others_models json_filedata = Ok models ->
  (Forall node_ok nodes ->
   exists more,
     load_brand_codes filename = Ok (models ++ more)
     /\ Forall2 node_emitted (List.filter has_code nodes) more)
  /\ (forall before d after key,
        nodes = before ++ PDict d :: after ->
        Forall node_ok before ->
        has_code (PDict d) = true ->
        first_missing d = Some key ->
        load_brand_codes filename = Err (KeyError key)).
Proof.
  intros Hread Hdata Htree Hkey Hnodes Hothers.
  assert (Hhalf : load_brand_codes filename
                  = (more ← tree_loop nodes []; mret (models ++ more))).
  { unfold load_brand_codes. rewrite Hread. cbn [mbind result_bind].
    rewrite load_brand_codes_json_halves, Hothers. cbn [mbind result_bind].
    unfold tree_models. rewrite Hdata. cbn [mbind result_bind].
    rewrite Htree. cbn [mbind result_bind]. unfold contains, getitem.
    by rewrite Hkey, Hnodes. }
  split.
  - intros Hok.
    destruct (tree_loop_emitted nodes Hok) as (more & Hloop & Hall).
    exists more. split; [|done]. by rewrite Hhalf, Hloop.
  - intros before d after key -> Hok Hcode Hmissing.
    destruct (tree_loop_emitted before Hok) as (ms & Hloop & _).
    rewrite Hhalf, tree_loop_append, Hloop. cbn [mbind result_bind tree_loop].
    unfold contains. fold (has_code (PDict d)). rewrite Hcode.
    cbn [mbind result_bind negb].
    by rewrite (tree_model_missing d key Hcode Hmissing).
Qed.

Lemma sample_nodes_ok :
  Forall node_ok
    [Samples.root_node; Samples.power_node; Samples.reverse_node].
Proof.
  apply Forall_cons; split;
    [|apply Forall_cons; split; [|apply Forall_cons; split; [|constructor]]];
    (eexists; split; [reflexivity|]); cbn;
    first [discriminate | intros _; repeat split; eexists; reflexivity].
Qed.

Lemma tree_nodes_yield_one_model_each_witness :
  load_brand_codes (Samples.file "sony" Samples.doc_full)
  = Ok ([Samples.model_3445] ++ [Samples.model_power; Samples.model_reverse])
  /\ Forall2 node_emitted [Samples.power_node; Samples.reverse_node]
       [Samples.model_power; Samples.model_reverse].
Proof.
  destruct (proj1 (tree_nodes_yield_one_model_each
             (Samples.file "sony" Samples.doc_full) Samples.doc_full
             (PDict [("tree", Samples.tree PNone);
                     ("others", PList [Samples.other_3445])])
             [("seceret_key", PNone);
              ("nodes", PList [Samples.root_node; Samples.power_node;
                               Samples.reverse_node])]
             [Samples.root_node; Samples.power_node; Samples.reverse_node]
             [Samples.model_3445]
             eq_refl eq_refl eq_refl eq_refl eq_refl eq_refl)
            sample_nodes_ok) as (more & Hload & Hall).
  vm_compute in Hload. injection Hload as <-. split; [reflexivity|exact Hall].
Defined.

(** ** The loop of build_patterns *)

Section BuildFacts.

Variable decrypt : pyval -> result pyval.

(** A turn of the loop only appends to [patterns]. *)
Lemma build_model_app (model : pyval) (patterns : list pyval) :
  build_model decrypt model patterns =
    ((build_model decrypt model []).1,
     (fun ps => patterns ++ ps) <$> (build_model decrypt model []).2).
Proof.
  unfold build_model.
  destruct (getitem model "frequency") as [frequency|e]; [|done].
  destruct (truthy frequency); cbn [negb fst snd];
    [|cbn; by rewrite app_nil_r].
  f_equal.
  destruct (primary_pattern decrypt model frequency) as [p|e]; [|done].
  cbn [mbind result_bind].
  destruct (contains "ir_zip_key_r" model) as [[]|e]; cbn; [| |done].
  - destruct (reverse_pattern decrypt model frequency) as [q|e]; [|done].
    cbn. by rewrite <- app_assoc.
  - done.
Qed.

Lemma build_patterns_loop_app (models patterns : list pyval) :
  build_patterns_loop decrypt models patterns =
    ((build_patterns decrypt models).1,
     (fun ps => patterns ++ ps) <$> (build_patterns decrypt models).2).
Proof.
  unfold build_patterns. revert patterns.
  induction models as [|m models IH]; intros patterns;
    cbn [build_patterns_loop].
  - cbn. by rewrite app_nil_r.
  - rewrite (build_model_app m patterns).
    destruct (build_model decrypt m []) as [log [ps|e]];
      cbn [fst snd fmap result_fmap];
      [|done].
    rewrite (IH (patterns ++ ps)), (IH ps).
    destruct (build_patterns_loop decrypt models []) as [log' [qs|e]];
      cbn; [|done].
    by rewrite <- app_assoc.
Qed.

Lemma build_patterns_cons (model : pyval) (models : list pyval) :
  build_patterns decrypt (model :: models) =
    match build_model decrypt model [] with
    | (log, Ok ps) =>
        (log ++ (build_patterns decrypt models).1,
         (fun qs => ps ++ qs) <$> (build_patterns decrypt models).2)
    | (log, Err e) => (log, Err e)
    end.
Proof.
  unfold build_patterns at 1. cbn [build_patterns_loop].
  destruct (build_model decrypt model []) as [log [ps|e]]; [|done].
  rewrite build_patterns_loop_app.
  by destruct (build_patterns decrypt models) as [log' r].
Qed.

(** A model after which the loop goes on, between two batches that are
    built without an exception. *)
Lemma build_patterns_through
    (before after : list pyval) (model : pyval)
    (log1 logm log2 : list log_record) (ps1 psm ps2 : list pyval) :
  build_patterns decrypt before = (log1, Ok ps1) ->
  build_model decrypt model [] = (logm, Ok psm) ->
  build_patterns decrypt after = (log2, Ok ps2) ->
  build_patterns decrypt (before ++ model :: after)
  = (log1 ++ logm ++ log2, Ok (ps1 ++ psm ++ ps2)).
Proof.
  revert log1 ps1. induction before as [|m before IH];
    intros log1 ps1 Hbefore Hmodel Hafter.
  - injection Hbefore as <- <-. cbn [app].
    by rewrite build_patterns_cons, Hmodel, Hafter.
  - cbn [app]. rewrite build_patterns_cons in Hbefore |- *.
    destruct (build_model decrypt m []) as [log [ps|e]]; [|done].
    destruct (build_patterns decrypt before) as [log' [qs|e]] eqn:Hb;
      [|done].
    injection Hbefore as <- <-.
    rewrite (IH log' qs eq_refl Hmodel Hafter). cbn.
    by rewrite <- !app_assoc.
Qed.

(** A model on which an exception is raised, after a batch that is
    built without one: the exception leaves [build_patterns]. *)
Lemma build_patterns_abort
    (before after : list pyval) (model : pyval)
    (log1 logm : list log_record) (ps1 : list pyval) (e : exn) :
  build_patterns decrypt before = (log1, Ok ps1) ->
  build_model decrypt model [] = (logm, Err e) ->
  build_patterns decrypt (before ++ model :: after) = (log1 ++ logm, Err e).
Proof.
  revert log1 ps1. induction before as [|m before IH];
    intros log1 ps1 Hbefore Hmodel.
  - injection Hbefore as <- <-. cbn [app].
    by rewrite build_patterns_cons, Hmodel.
  - cbn [app]. rewrite build_patterns_cons in Hbefore |- *.
    destruct (build_model decrypt m []) as [log [ps|e']]; [|done].
    destruct (build_patterns decrypt before) as [log' [qs|e']] eqn:Hb;
      [|done].
    injection Hbefore as <- <-.
    rewrite (IH log' qs eq_refl Hmodel). cbn.
    by rewrite <- !app_assoc.
Qed.

End BuildFacts.

(** ** The frequency of a model *)

Lemma build_model_false_frequency
    (decrypt : pyval -> result pyval) (model frequency : pyval) :
  getitem model "frequency" = Ok frequency ->
  truthy frequency = false ->
  build_model decrypt model [] = ([InvalidFrequency model], Ok []).
Proof. unfold build_model. by intros -> ->. Qed.

(** C4, as stated, fails: a model with the negative frequency -38000 and
    a code that decrypts is not skipped; its Pattern is built, with the
    negative frequency, and nothing is logged. *)
Lemma negative_frequency_yields_pattern :
  build_patterns (Samples.decrypt_but "!!") [Samples.flat_negative]
  = ([], Ok [Samples.pattern (PStr "power") (-38000) "QJPmll3"]).
Proof. reflexivity. Qed.

(** C4, amended.  For every model whose frequency is zero (or any other
    false value: [None], [False], an empty string or container),
    [build_patterns] emits no Pattern for that model, logs it, and goes
    on with the rest of the batch: the Patterns returned are those of
    the models before and after it. *)
Theorem zero_frequency_is_skipped
    (decrypt : pyval -> result pyval) (before after : list pyval)
    (model frequency : pyval)
    (log1 log2 : list log_record) (ps1 ps2 : list pyval) :
  getitem model "frequency" = Ok frequency ->
  truthy frequency = false ->
  build_patterns decrypt before = (log1, Ok ps1) ->
  build_patterns decrypt after = (log2, Ok ps2) ->
  build_patterns decrypt (before ++ model :: after)
  = (log1 ++ InvalidFrequency model :: log2, Ok (ps1 ++ ps2)).
Proof.
  intros Hfreq Hfalse Hbefore Hafter.
  apply (build_patterns_through decrypt before after model
           log1 [InvalidFrequency model] log2 ps1 [] ps2); [done| |done].
  by apply (build_model_false_frequency decrypt model frequency).
Qed.

Lemma zero_frequency_is_skipped_witness :
  build_patterns (Samples.decrypt_but "!!")
    ([Samples.flat_power] ++ Samples.flat_zero :: [Samples.flat_reverse "xxr"])
  = ([] ++ InvalidFrequency Samples.flat_zero :: [],
     Ok ([Samples.pattern (PStr "power") 37990 "QJPmll3"]
         ++ [PPattern (PStr "xxx") (PInt 37000) (PList [PStr "xm_1_199"])
               (PStr "mi") (PStr "power");
             PPattern (PStr "xxr") (PInt 37000) (PList [PStr "xm_1_199"])
               (PStr "mi") (PStr "power_r")])).
Proof.
  apply (zero_frequency_is_skipped (Samples.decrypt_but "!!")
           [Samples.flat_power] [Samples.flat_reverse "xxr"]
           Samples.flat_zero (PInt 0));
    reflexivity.
Defined.

(** ** Codes that do not decrypt *)

Lemma build_model_primary_fails
    (decrypt : pyval -> result pyval) (model frequency code : pyval) (e : exn) :
  getitem model "frequency" = Ok frequency ->
  truthy frequency = true ->
  getitem model "ir_zip_key" = Ok code ->
  decrypt code = Err e ->
  build_model decrypt model [] = ([], Err e).
Proof.
  intros Hfreq Htrue Hcode Hfail. unfold build_model, primary_pattern.
  by rewrite Hfreq, Htrue, Hcode; cbn; rewrite Hfail.
Qed.

Lemma build_model_reverse_fails
    (decrypt : pyval -> result pyval)
    (model frequency code ir_code code_r : pyval) (e : exn) :
  getitem model "frequency" = Ok frequency ->
  truthy frequency = true ->
  getitem model "ir_zip_key" = Ok code ->
  decrypt code = Ok ir_code ->
  getitem model "ir_zip_key_r" = Ok code_r ->
  decrypt code_r = Err e ->
  build_model decrypt model [] = ([], Err e).
Proof.
  intros Hfreq Htrue Hcode Hclear Hrev Hfail.
  destruct (getitem_Ok_dict _ _ _ Hrev) as (d & -> & Hr).
  unfold build_model, primary_pattern, reverse_pattern.
  rewrite Hfreq, Htrue, Hcode. cbn [negb mbind result_bind].
  rewrite Hclear. cbn [get mbind result_bind mret result_ret contains].
  rewrite Hr. rewrite Hrev. cbn [mbind result_bind]. by rewrite Hfail.
Qed.

(** C3, as stated, fails.  With a decryptor that raises on the code
    ["!!"]: a batch of a model with that code followed by a sound model
    returns no Pattern at all, although the sound model alone yields its
    Pattern; and a model with a sound code and the reverse code ["!!"]
    returns no Pattern either, the primary one included. *)
Lemma corrupt_code_aborts_batch :
  build_patterns (Samples.decrypt_but "!!")
    [Samples.flat_corrupt; Samples.flat_power]
  = ([], Err (Raised "binascii.Error"))
  /\ build_patterns (Samples.decrypt_but "!!") [Samples.flat_power]
     = ([], Ok [Samples.pattern (PStr "power") 37990 "QJPmll3"])
  /\ build_patterns (Samples.decrypt_but "!!") [Samples.flat_reverse "!!"]
     = ([], Err (Raised "binascii.Error")).
Proof. repeat split; reflexivity. Qed.

(** C3, amended.  [build_patterns] catches no exception.  For every
    model with a true frequency whose primary code fails to decrypt, the
    exception of the decryptor leaves [build_patterns]: no Pattern is
    returned for the batch, neither those built before the model nor
    those of the models after it.  The same holds for a model whose
    primary code decrypts and whose reverse code fails to decrypt: the
    primary Pattern is lost with the rest. *)
Theorem decrypt_failure_aborts_batch
    (decrypt : pyval -> result pyval) (before after : list pyval)
    (model frequency code : pyval)
    (log1 : list log_record) (ps1 : list pyval) (e : exn) :
  build_patterns decrypt before = (log1, Ok ps1) ->
  getitem model "frequency" = Ok frequency ->
  truthy frequency = true ->
  getitem model "ir_zip_key" = Ok code ->
  (decrypt code = Err e
   \/ exists ir_code code_r,
        decrypt code = Ok ir_code
        /\ getitem model "ir_zip_key_r" = Ok code_r
        /\ decrypt code_r = Err e) ->
  build_patterns decrypt (before ++ model :: after) = (log1, Err e).
Proof.
  intros Hbefore Hfreq Htrue Hcode Hfail.
  rewrite <- (app_nil_r log1).
  apply (build_patterns_abort decrypt before after model log1 [] ps1 e);
    [done|].
  destruct Hfail as [Hfail | (ir_code & code_r & Hclear & Hrev & Hfail)].
  - by apply (build_model_primary_fails decrypt model frequency code).
  - by apply (build_model_reverse_fails decrypt model frequency code
                ir_code code_r).
Qed.

Lemma decrypt_failure_aborts_batch_witness :
  build_patterns (Samples.decrypt_but "!!")
    ([Samples.flat_power] ++ Samples.flat_reverse "!!" :: [Samples.flat_power])
  = ([], Err (Raised "binascii.Error")).
Proof.
  apply (decrypt_failure_aborts_batch (Samples.decrypt_but "!!")
           [Samples.flat_power] [Samples.flat_power]
           (Samples.flat_reverse "!!") (PInt 37000) (PStr "xxx") []
           [Samples.pattern (PStr "power") 37990 "QJPmll3"]);
    try reflexivity.
  right. exists (PStr "xxx"), (PStr "!!"). repeat split; reflexivity.
Defined.

(** ** A code and its reverse code *)

(** The name given to the second Pattern. *)
Lemma reverse_name_cases (name : pyval) :
  name = PNone \/ (exists s, name = PStr s) ->
  exists name_r,
    (if is_none name then mret name else add_str name "_r") = Ok name_r
    /\ (name = PNone -> name_r = PNone)
    /\ (forall s, name = PStr s -> name_r = PStr (s ++ "_r")%string).
Proof.
  intros [-> | [s ->]]; eexists; (split; [reflexivity|]); split;
    first [done | by intros ? [= ->]].
Qed.

(** C8.  For every model, in the layout that [build_patterns] reads,
    that carries a primary code and a reverse code, with a true (hence
    any positive) frequency, both codes decrypting, and a button name
    that is a string or is absent: [build_patterns] emits exactly two
    Patterns for it, the primary one and then the reverse one, in their
    place among the Patterns of the batch.  Both have the frequency, the
    model id and the vendor of the model; the first has the button name
    of the model, the second that name with ["_r"] appended, or [None]
    when the model has no name. *)
Theorem both_codes_yield_two_patterns
    (decrypt : pyval -> result pyval) (before after : list pyval)
    (d : dict) (frequency code code_r ir_code ir_code_r : pyval)
    (log1 log2 : list log_record) (ps1 ps2 : list pyval) :
  let name := default PNone (dict_lookup "id" d) in
  let model_id :=
    default (default PNone (dict_lookup "keysetids" d)) (dict_lookup "_id" d) in
  let vendor_id := default (PStr "mi") (dict_lookup "source" d) in
  dict_lookup "frequency" d = Some frequency ->
  truthy frequency = true ->
  dict_lookup "ir_zip_key" d = Some code ->
  dict_lookup "ir_zip_key_r" d = Some code_r ->
  decrypt code = Ok ir_code ->
  decrypt code_r = Ok ir_code_r ->
  name = PNone \/ (exists s, name = PStr s) ->
  build_patterns decrypt before = (log1, Ok ps1) ->
  build_patterns decrypt after = (log2, Ok ps2) ->
  exists name_r,
    build_patterns decrypt (before ++ PDict d :: after)
    = (log1 ++ log2,
       Ok (ps1 ++ [PPattern ir_code frequency model_id vendor_id name;
                   PPattern ir_code_r frequency model_id vendor_id name_r]
               ++ ps2))
    /\ (name = PNone -> name_r = PNone)
    /\ (forall s, name = PStr s -> name_r = PStr (s ++ "_r")%string).
Proof.
  intros name model_id vendor_id Hfreq Htrue Hcode Hrev Hclear Hclear_r Hname
    Hbefore Hafter.
  destruct (reverse_name_cases name Hname) as (name_r & Hname_r & Hnone & Hstr).
  exists name_r. split; [|by split].
  apply (build_patterns_through decrypt before after (PDict d)
           log1 [] log2 ps1 _ ps2); [done| |done].
  unfold build_model, primary_pattern, reverse_pattern, getitem, contains, get.
  rewrite Hfreq, Htrue, Hcode, Hrev. cbn [negb mbind result_bind].
  rewrite Hclear, Hclear_r. cbn [mbind result_bind mret result_ret].
  fold name. rewrite Hname_r. reflexivity.
Qed.

Lemma both_codes_yield_two_patterns_witness :
  exists name_r,
    build_patterns (Samples.decrypt_but "!!")
      ([Samples.flat_power] ++ Samples.flat_reverse "xxr" :: [])
    = ([] ++ [],
       Ok ([Samples.pattern (PStr "power") 37990 "QJPmll3"]
           ++ [PPattern (PStr "xxx") (PInt 37000) (PList [PStr "xm_1_199"])
                 (PStr "mi") (PStr "power");
               PPattern (PStr "xxr") (PInt 37000) (PList [PStr "xm_1_199"])
                 (PStr "mi") name_r]
           ++ []))
    /\ (PStr "power" = PNone -> name_r = PNone)
    /\ (forall s, PStr "power" = PStr s -> name_r = PStr (s ++ "_r")%string).
Proof.
  apply (both_codes_yield_two_patterns (Samples.decrypt_but "!!")
           [Samples.flat_power] []
           (Samples.flat "power" 37000 "xxx" ++ [("ir_zip_key_r", PStr "xxr")])
           (PInt 37000) (PStr "xxx") (PStr "xxr") (PStr "xxx") (PStr "xxr")
           [] [] [Samples.pattern (PStr "power") 37990 "QJPmll3"] []);
    try reflexivity.
  right. by exists "power".
Defined.

Example unnamed_model_reverse_pattern :
  build_patterns (Samples.decrypt_but "!!") [Samples.flat_unnamed]
  = ([], Ok [PPattern (PStr "xxx") (PInt 37000) PNone (PStr "kk") PNone;
             PPattern (PStr "xxr") (PInt 37000) PNone (PStr "kk") PNone]).
Proof. reflexivity. Qed.

(** ** The directory *)

(** The loop over the files when every file loads: the total grows by
    the number of models of each file and each stem is bound to the
    models of its file. *)
Lemma dir_loop_loads
    (files : list json_file) (total : nat) (models : gmap string (list pyval)) :
  Forall loads files ->
  NoDup (stem <$> files) ->
  exists out models',
    dir_loop files total models
    = (out, Ok ((total + sum_list (models_loaded <$> files))%nat, models'))
    /\ dom models' = dom models ∪ list_to_set (stem <$> files)
    /\ (forall f, f ∈ files ->
          exists ms, load_brand_codes f = Ok ms /\ models' !! stem f = Some ms)
    /\ (forall k, k ∉ stem <$> files -> models' !! k = models !! k).
Proof.
  intros Hloads. revert total models.
  induction Hloads as [|f files [ms Hf] _ IH]; intros total models Hdup.
  - exists [], models. cbn. rewrite Nat.add_0_r.
    split_and!; [done | set_solver | | done].
    intros f Hf. by apply elem_of_nil in Hf.
  - rewrite fmap_cons in Hdup. apply NoDup_cons in Hdup as [Hfresh Hdup].
    destruct (IH (total + length ms)%nat (<[stem f := ms]> models) Hdup)
      as (out & models' & Hloop & Hdom & Hfiles & Hother).
    exists (PrintFile (path f) :: PrintLen (length ms) :: out), models'.
    split_and!.
    + cbn [dir_loop]. rewrite Hf, Hloop. rewrite fmap_cons. cbn.
      replace (models_loaded f) with (length ms)
        by (unfold models_loaded; by rewrite Hf).
      do 3 f_equal. lia.
    + rewrite Hdom, dom_insert_L. rewrite fmap_cons. set_solver.
    + intros g [-> | Hg]%elem_of_cons.
      * exists ms. split; [done|].
        by rewrite (Hother _ Hfresh), lookup_insert_eq.
      * by apply Hfiles.
    + intros k Hk. rewrite fmap_cons in Hk.
      apply not_elem_of_cons in Hk as [Hne Hk].
      by rewrite (Hother _ Hk), lookup_insert_ne.
Qed.

(** The loop over the files when one of them does not load, after files
    that do: the exception leaves the loop at that file. *)
Lemma dir_loop_abort
    (before after : list json_file) (f : json_file) (e : exn)
    (total : nat) (models : gmap string (list pyval)) :
  Forall loads before ->
  load_brand_codes f = Err e ->
  dir_loop (before ++ f :: after) total models
  = (printed_loaded before ++ [PrintFile (path f)], Err e).
Proof.
  intros Hloads Hf. revert total models.
  induction Hloads as [|g before [ms Hg] _ IH]; intros total models.
  - cbn [app dir_loop]. by rewrite Hf.
  - cbn [app dir_loop]. rewrite Hg, IH.
    cbn [printed_loaded flat_map app]. unfold models_loaded at 1.
    by rewrite Hg.
Qed.

(** The loop over files the last of which does not load: what is printed
    and the exception depend neither on the files that follow nor on the
    state of the loop. *)
Lemma dir_loop_raises
    (before : list json_file) (f : json_file) (e0 : exn) :
  load_brand_codes f = Err e0 ->
  exists out e,
    forall after total models,
      dir_loop (before ++ f :: after) total models = (out, Err e).
Proof.
  intros Hf. induction before as [|g before (out & e & IH)].
  - exists [PrintFile (path f)], e0. intros after total models.
    cbn [app dir_loop]. by rewrite Hf.
  - destruct (load_brand_codes g) as [ms|e'] eqn:Hg.
    + exists (PrintFile (path g) :: PrintLen (length ms) :: out), e.
      intros after total models. cbn [app dir_loop]. by rewrite Hg, IH.
    + exists [PrintFile (path g)], e'. intros after total models.
      cbn [app dir_loop]. by rewrite Hg.
Qed.

Lemma missing_data_raises (filename : json_file) (d : dict) :
  read_json filename = Ok (PDict d) ->
  dict_lookup "data" d = None ->
  load_brand_codes filename = Err (KeyError "data").
Proof.
  intros Hread Hdata. unfold load_brand_codes. rewrite Hread.
  cbn [mbind result_bind].
  apply load_brand_codes_json_others_Err.
  unfold others_models. by rewrite (getitem_missing _ _ Hdata).
Qed.

(** C6, as stated, fails: in a directory with a document without
    ["data"] followed by a sound document, the [KeyError] of the first
    leaves [load_brand_codes_from_dir]; the second document, which
    loads, is never read and no mapping is returned. *)
Lemma missing_data_aborts_directory :
  load_brand_codes_from_dir
    [Samples.file "aiwa" Samples.doc_no_data;
     Samples.file "sony" Samples.doc_full]
  = ([PrintFile "brands/aiwa.json"], Err (KeyError "data"))
  /\ loads (Samples.file "sony" Samples.doc_full).
Proof. split; [reflexivity | by eexists]. Qed.

(** C6, amended.  For every document without the top-level ["data"]
    key, [load_brand_codes] fails at once with [KeyError('data')], and
    the exception is not caught by [load_brand_codes_from_dir]: a
    directory that holds such a document yields an exception and no
    mapping, and the documents after it are not processed: what is
    printed and the exception are the same whatever follows the
    document.  When the documents before it load, the name and the number
    of models of each of them are printed, then the name of the document,
    and nothing else, and the exception is that [KeyError]. *)
Theorem missing_data_fails_directory
    (before : list json_file) (filename : json_file) (d : dict) :
  read_json filename = Ok (PDict d) ->
  dict_lookup "data" d = None ->
  load_brand_codes filename = Err (KeyError "data")
  /\ (exists out e,
        forall after,
          load_brand_codes_from_dir (before ++ filename :: after)
          = (out, Err e))
  /\ (Forall loads before ->
      forall after,
        load_brand_codes_from_dir (before ++ filename :: after)
        = (printed_loaded before ++ [PrintFile (path filename)],
           Err (KeyError "data"))).
Proof.
  intros Hread Hdata.
  pose proof (missing_data_raises filename d Hread Hdata) as Hload.
  split; [done|]. split.
  - destruct (dir_loop_raises before filename _ Hload) as (out & e & Hloop).
    exists out, e. intros after. unfold load_brand_codes_from_dir.
    by rewrite Hloop.
  - intros Hloads after. unfold load_brand_codes_from_dir.
    by rewrite (dir_loop_abort before after filename _ 0%nat ∅ Hloads Hload).
Qed.

Lemma missing_data_fails_directory_witness :
  load_brand_codes (Samples.file "aiwa" Samples.doc_no_data)
  = Err (KeyError "data")
  /\ load_brand_codes_from_dir
       ([Samples.file "sony" Samples.doc_full]
        ++ Samples.file "aiwa" Samples.doc_no_data
        :: [Samples.file "akai" Samples.doc_tree])
     = ([PrintFile "brands/sony.json"; PrintLen 3;
         PrintFile "brands/aiwa.json"],
        Err (KeyError "data")).
Proof.
  destruct (missing_data_fails_directory
              [Samples.file "sony" Samples.doc_full]
              (Samples.file "aiwa" Samples.doc_no_data)
              [("status", PInt 0)] eq_refl eq_refl)
    as (Hload & _ & Hdir).
  split; [exact Hload|].
  apply (Hdir (Forall_cons_2 loads (Samples.file "sony" Samples.doc_full) []
                 (ex_intro _ [Samples.model_3445; Samples.model_power;
                              Samples.model_reverse] eq_refl)
                 (Forall_nil_2 loads))
              [Samples.file "akai" Samples.doc_tree]).
Defined.

(** C7, as stated, fails: the value bound to the stem of a document is
    the list of the models of [load_brand_codes], dicts that were never
    given to [build_patterns], and no Pattern; the function returns the
    mapping alone, the count of 3 is only printed. *)
Lemma directory_values_are_models :
  exists models,
    load_brand_codes_from_dir [Samples.file "sony" Samples.doc_full]
    = ([PrintFile "brands/sony.json"; PrintLen 3; PrintTotal 3], Ok models)
    /\ models !! "sony"
       = Some [Samples.model_3445; Samples.model_power; Samples.model_reverse]
    /\ forallb is_pattern
         [Samples.model_3445; Samples.model_power; Samples.model_reverse]
       = false.
Proof.
  exists (<["sony" := [Samples.model_3445; Samples.model_power;
                       Samples.model_reverse]]> ∅).
  split_and!; [reflexivity | apply lookup_insert_eq | reflexivity].
Qed.

(** C7, amended.  For a directory whose documents all load and have
    distinct stems (two files of one directory share a stem only when
    one is named after the other with a second [.json]),
    [load_brand_codes_from_dir] returns a mapping whose keys are the
    stems of the documents and whose values are the lists of models
    returned by [load_brand_codes] for them, none of which is a Pattern;
    the aggregate count, the sum of the lengths of these lists, is the
    last thing printed and is not part of the result. *)
Theorem directory_maps_stems_to_models (directory : list json_file) :
  Forall loads directory ->
  NoDup (stem <$> directory) ->
  exists out models,
    load_brand_codes_from_dir directory = (out, Ok models)
    /\ dom models = list_to_set (stem <$> directory)
    /\ (forall f, f ∈ directory ->
          exists ms,
            load_brand_codes f = Ok ms
            /\ models !! stem f = Some ms
            /\ Forall (fun m => is_pattern m = false) ms)
    /\ last out = Some (PrintTotal (sum_list (models_loaded <$> directory))).
Proof.
  intros Hloads Hdup.
  destruct (dir_loop_loads directory 0%nat ∅ Hloads Hdup)
    as (out & models & Hloop & Hdom & Hfiles & _).
  exists (out ++ [PrintTotal (sum_list (models_loaded <$> directory))]), models.
  split_and!.
  - unfold load_brand_codes_from_dir. by rewrite Hloop.
  - rewrite Hdom, dom_empty_L. by rewrite (left_id_L ∅ (∪)).
  - intros f Hf. destruct (Hfiles f Hf) as (ms & Hload & Hlookup).
    exists ms. split_and!; [done..|].
    eapply Forall_impl; [by eapply load_brand_codes_shape|].
    apply model_shape_not_pattern.
  - apply last_snoc.
Qed.

Lemma directory_maps_stems_to_models_witness :
  exists out models,
    load_brand_codes_from_dir
      [Samples.file "sony" Samples.doc_full;
       Samples.file "akai" Samples.doc_tree]
    = (out, Ok models)
    /\ dom models = list_to_set ["sony"; "akai"]
    /\ (forall f,
          f ∈ [Samples.file "sony" Samples.doc_full;
               Samples.file "akai" Samples.doc_tree] ->
          exists ms,
            load_brand_codes f = Ok ms
            /\ models !! stem f = Some ms
            /\ Forall (fun m => is_pattern m = false) ms)
    /\ last out = Some (PrintTotal 5).
Proof.
  apply (directory_maps_stems_to_models
           [Samples.file "sony" Samples.doc_full;
            Samples.file "akai" Samples.doc_tree]).
  - repeat constructor; by eexists.
  - apply NoDup_cons. split; [|apply NoDup_singleton].
    intros Hin. apply list_elem_of_singleton in Hin. discriminate.
Defined.

(** ** A tree with a key *)

Lemma others_models_ok (json_filedata : pyval) (data : dict) :
  getitem json_filedata "data" = Ok (PDict data) ->
  others_ok data ->
  exists models, others_models json_filedata = Ok models.
Proof.
  intros Hdata Hok. unfold others_models, others_ok in *.
  rewrite Hdata. cbn [mbind result_bind contains getitem].
  destruct (dict_lookup "others" data) as [others|]; [|by eexists].
  destruct Hok as (section & -> & Hok).
  destruct (parse_others_loop_emitted section Hok) as (yielded & Hloop & _).
  cbn. rewrite Hloop. by eexists.
Qed.

(** C10.  When the tree of a brand document is a dict whose
    ["seceret_key"] is not [None], [load_brand_codes] returns no models
    at all; and for a document whose "others" section is absent or made
    of entries with their keys, so that the first half builds its
    models, the exception is the [AssertionError] of the [assert]
    statement (assertions being enabled): the models built so far are
    dropped and neither the key nor the nodes are read. *)
Theorem keyed_tree_fails_assertion
    (filename : json_file) (json_filedata seceret_key : pyval)
    (data tree : dict) :
  read_json filename = Ok json_filedata ->
  getitem json_filedata "data" = Ok (PDict data) ->
  dict_lookup "tree" data = Some (PDict tree) ->
  dict_lookup "seceret_key" tree = Some seceret_key ->
  seceret_key <> PNone ->
  (forall models, load_brand_codes filename <> Ok models)
  /\ (others_ok data -> load_brand_codes filename = Err AssertionError).
Proof.
  intros Hread Hdata Htree Hkey Hnone.
  assert (Hassert : forall models, others_models json_filedata = Ok models ->
            load_brand_codes filename = Err AssertionError).
  { intros models Hothers. unfold load_brand_codes. rewrite Hread. cbn.
    rewrite (load_brand_codes_json_others _ _ Hothers).
    rewrite Hdata. cbn [mbind result_bind getitem contains].
    rewrite Htree. cbn [mbind result_bind getitem contains].
    rewrite Hkey. cbn. by destruct seceret_key. }
  split.
  - intros models Hload.
    destruct (others_models json_filedata) as [ms|e] eqn:Hothers.
    + rewrite (Hassert ms eq_refl) in Hload. discriminate.
    + unfold load_brand_codes in Hload. rewrite Hread in Hload. cbn in Hload.
      rewrite (load_brand_codes_json_others_Err _ _ Hothers) in Hload.
      discriminate.
  - intros Hok. destruct (others_models_ok _ _ Hdata Hok) as [ms Hms].
    by apply (Hassert ms).
Qed.

Lemma keyed_tree_fails_assertion_witness :
  load_brand_codes (Samples.file "sony" Samples.doc_keyed) = Err AssertionError.
Proof.
  refine (proj2 (keyed_tree_fails_assertion
           (Samples.file "sony" Samples.doc_keyed) Samples.doc_keyed
           (PStr "0a1b")
           [("tree", Samples.tree (PStr "0a1b"))]
           [("seceret_key", PStr "0a1b");
            ("nodes", PList [Samples.root_node; Samples.power_node;
                             Samples.reverse_node])] _ _ _ _ _) _);
    first [reflexivity | discriminate | exact I].
Defined.

(** An "others" entry without ["source"] raises in the first half, before
    the tree is looked at. *)
Example keyed_tree_after_unsound_others :
  load_brand_codes (Samples.file "sony" Samples.doc_keyed_bad_others)
  = Err (KeyError "source").
Proof. reflexivity. Qed.

(** ** Dicts keyed by integers *)

Lemma table_set_int_keys (j : Z) (v : pyval) (t : table) :
  int_keys t -> int_keys (table_set (PInt j) v t).
Proof.
  induction 1 as [|[k w] t [z Hk] Ht IH]; cbn [table_set].
  - repeat constructor. by exists j.
  - cbn in Hk. subst k. cbn [key_equal].
    destruct (j =? z); (constructor; [by exists z | done]).
Qed.

Lemma table_lookup_set (i j : Z) (v : pyval) (t : table) :
  int_keys t ->
  table_lookup (PInt i) (table_set (PInt j) v t)
  = if decide (i = j) then Some v else table_lookup (PInt i) t.
Proof.
  induction 1 as [|[k w] t [z Hk] _ IH]; cbn [table_set table_lookup].
  - cbn. destruct (Z.eqb_spec i j), (decide (i = j)); done.
  - cbn in Hk. subst k. cbn [key_equal].
    destruct (Z.eqb_spec j z) as [->|Hjz]; cbn [table_lookup key_equal].
    + destruct (Z.eqb_spec i z), (decide (i = z)); done.
    + rewrite IH. destruct (Z.eqb_spec i z) as [->|Hiz]; [|done].
      by rewrite decide_False.
Qed.

Lemma table_set_length (k v : pyval) (t : table) :
  (length (table_set k v t) <= S (length t))%nat.
Proof.
  induction t as [|[k' w] t IH]; cbn; [lia|].
  destruct (key_equal k k'); cbn; lia.
Qed.

Lemma assign_all_int_keys (kvs : list (Z * pyval)) (t : table) :
  int_keys t -> int_keys (assign_all t kvs).
Proof.
  revert t. induction kvs as [|kv kvs IH]; intros t Ht; [done|].
  apply IH. by apply table_set_int_keys.
Qed.

Lemma assign_all_length (kvs : list (Z * pyval)) (t : table) :
  (length (assign_all t kvs) <= length t + length kvs)%nat.
Proof.
  revert t. induction kvs as [|kv kvs IH]; intros t; cbn; [lia|].
  etrans; [apply IH|]. pose proof (table_set_length (PInt kv.1) kv.2 t). lia.
Qed.

(** A key that is not assigned keeps its value. *)
Lemma assign_all_lookup_other (kvs : list (Z * pyval)) (t : table) (i : Z) :
  int_keys t ->
  i ∉ kvs.*1 ->
  table_lookup (PInt i) (assign_all t kvs) = table_lookup (PInt i) t.
Proof.
  revert t. induction kvs as [|[j v] kvs IH]; intros t Ht Hi; [done|].
  rewrite fmap_cons in Hi. apply not_elem_of_cons in Hi as [Hij Hi].
  cbn [assign_all foldl]. fold (assign_all (table_set (PInt j) v t) kvs).
  rewrite IH; [|by apply table_set_int_keys|done].
  cbn [fst snd]. rewrite table_lookup_set by done. by rewrite decide_False.
Qed.

(** The value of a key is the one of its last assignment. *)
Lemma assign_all_lookup_last
    (before after : list (Z * pyval)) (t : table) (i : Z) (v : pyval) :
  int_keys t ->
  i ∉ after.*1 ->
  table_lookup (PInt i) (assign_all t (before ++ (i, v) :: after)) = Some v.
Proof.
  intros Ht Hi. unfold assign_all. rewrite foldl_app. cbn [foldl].
  fold (assign_all t before).
  fold (assign_all (table_set (PInt (i, v).1) (i, v).2 (assign_all t before))
          after).
  rewrite assign_all_lookup_other;
    [|by apply table_set_int_keys, assign_all_int_keys|done].
  cbn [fst snd]. rewrite table_lookup_set by by apply assign_all_int_keys.
  by rewrite decide_True.
Qed.

(** The loop of the two functions when every entry has an integer key. *)
Lemma table_loop_assign
    (entry : pyval -> result (pyval * pyval))
    (elems : list pyval) (kvs : list (Z * pyval)) (t : table) :
  Forall2 (fun elem kv => entry elem = Ok (PInt kv.1, kv.2)) elems kvs ->
  table_loop entry elems t = Ok (assign_all t kvs).
Proof.
  intros H. revert t. induction H as [|elem kv elems kvs He _ IH]; intros t.
  - done.
  - cbn [table_loop]. rewrite He. cbn. apply IH.
Qed.

(** The loop when an entry raises, after entries that have integer keys. *)
Lemma table_loop_abort
    (entry : pyval -> result (pyval * pyval))
    (before after : list pyval) (elem : pyval) (kvs : list (Z * pyval))
    (t : table) (e : exn) :
  Forall2 (fun elem kv => entry elem = Ok (PInt kv.1, kv.2)) before kvs ->
  entry elem = Err e ->
  table_loop entry (before ++ elem :: after) t = Err e.
Proof.
  intros H He. revert t. induction H as [|x kv before kvs Hx _ IH]; intros t.
  - cbn [app table_loop]. by rewrite He.
  - cbn [app table_loop]. rewrite Hx. cbn. apply IH.
Qed.

(** ** The English name *)

Lemma filter_is_en_none (items : list pyval) :
  Forall (fun x => is_en x = false) items -> List.filter is_en items = [].
Proof. induction 1 as [|x items Hx _ IH]; cbn; [done|]. by rewrite Hx. Qed.

Lemma en_names_filter (items : list pyval) :
  Forall info_item_ok items ->
  exists names,
    en_names items = Ok names
    /\ Forall2 (fun item name => getitem item "name" = Ok name)
         (List.filter is_en items) names.
Proof.
  induction 1 as [|item items (d & country & -> & Hc & Hname) _
                    (names & Hnames & Hall)].
  - exists []. split; [done|constructor].
  - cbn [en_names List.filter is_en]. unfold getitem. rewrite Hc.
    cbn [mbind result_bind].
    destruct (str_equal "EN" country) eqn:Hen.
    + destruct (Hname eq_refl) as [name Hn].
      exists (name :: names). rewrite Hn, Hnames.
      split; [done|]. constructor; [by rewrite Hn | done].
    + by exists names.
Qed.

Lemma en_name_english (info name : pyval) :
  english_name info name -> en_name info = Ok name.
Proof.
  intros (before & item & after & -> & Hok & Hbefore & Hen & Hname).
  destruct (en_names_filter _ Hok) as (names & Hnames & Hall).
  unfold en_name. cbn [iterate mbind result_bind]. rewrite Hnames.
  cbn [mbind result_bind].
  rewrite List.filter_app, (filter_is_en_none _ Hbefore) in Hall.
  cbn [app List.filter] in Hall. rewrite Hen in Hall.
  apply Forall2_cons_inv_l in Hall as (n & names' & Hn & _ & ->).
  cbn. congruence.
Qed.

(** An [info] list without an English item: the comprehension is
    empty. *)
Lemma en_name_missing (items : list pyval) :
  Forall info_item_ok items ->
  Forall (fun x => is_en x = false) items ->
  en_name (PList items) = Err (Raised "IndexError").
Proof.
  intros Hok Hnone.
  destruct (en_names_filter _ Hok) as (names & Hnames & Hall).
  rewrite (filter_is_en_none _ Hnone) in Hall.
  apply Forall2_nil_inv_l in Hall as ->.
  unfold en_name. cbn [iterate mbind result_bind]. by rewrite Hnames.
Qed.

Lemma brand_entry_ok (brand : pyval) (row : Z * pyval * pyval) :
  brand_ok brand row ->
  brand_entry brand
  = Ok (PInt row.1.1, PDict [("name", row.1.2); ("deviceid", row.2)]).
Proof.
  intros (d & info & -> & Hinfo & Hname & Hid & Hdev).
  unfold brand_entry, getitem. rewrite Hinfo, Hid, Hdev.
  cbn [mbind result_bind]. by rewrite (en_name_english _ _ Hname).
Qed.

Lemma device_entry_ok (json_device : pyval) (row : Z * string) :
  device_ok json_device row ->
  device_entry json_device
  = Ok (PInt row.1, PDict [("name", PStr (replace_char "/" "_" row.2))]).
Proof.
  intros (d & info & -> & Hinfo & Hname & Hid).
  unfold device_entry, getitem. rewrite Hinfo, Hid.
  cbn [mbind result_bind]. by rewrite (en_name_english _ _ Hname).
Qed.

(** ** load_brand_list *)

(** X1.  For a list of brands that have an integer id, a device id and
    an English name, [load_brand_list] returns a dict in which every
    brand id is bound to the English name (the name of the first item of
    its ["info"] whose country is ["EN"]) and the device id of the last
    brand of the list with that id; no other integer is a key, and the
    dict has at most one item per brand. *)
Theorem load_brand_list_last_brand_wins
    (filename : json_file) (json_filedata : pyval)
    (json_brands : list pyval) (rows : list (Z * pyval * pyval)) :
  read_json filename = Ok json_filedata ->
  getitem json_filedata "data" = Ok (PList json_brands) ->
  Forall2 brand_ok json_brands rows ->
  exists brands,
    load_brand_list filename = Ok brands
    /\ (forall before id name device_id after,
          rows = before ++ (id, name, device_id) :: after ->
          id ∉ (fun row => row.1.1) <$> after ->
          table_lookup (PInt id) brands
          = Some (PDict [("name", name); ("deviceid", device_id)]))
    /\ (forall id,
          id ∉ (fun row => row.1.1) <$> rows ->
          table_lookup (PInt id) brands = None)
    /\ (length brands <= length json_brands)%nat.
Proof.
  intros Hread Hdata Hrows.
  set (kv := fun row : Z * pyval * pyval =>
               (row.1.1, PDict [("name", row.1.2); ("deviceid", row.2)])).
  exists (assign_all [] (kv <$> rows)).
  assert (Hkeys : forall l : list (Z * pyval * pyval),
            (kv <$> l).*1 = (fun row => row.1.1) <$> l).
  { intros l. rewrite <- list_fmap_compose. done. }
  split_and!.
  - unfold load_brand_list. rewrite Hread. cbn [mbind result_bind].
    rewrite Hdata. cbn [mbind result_bind iterate].
    apply table_loop_assign. apply Forall2_fmap_r.
    eapply Forall2_impl; [exact Hrows|].
    intros brand row Hok. by apply brand_entry_ok.
  - intros before id name device_id after -> Hid.
    rewrite fmap_app, fmap_cons.
    apply assign_all_lookup_last; [constructor|]. by rewrite Hkeys.
  - intros id Hid.
    rewrite assign_all_lookup_other; [done|constructor|]. by rewrite Hkeys.
  - etrans; [apply assign_all_length|]. cbn [length].
    rewrite length_fmap. by rewrite (Forall2_length _ _ _ Hrows).
Qed.

Lemma sample_info_english (cn en : pyval) :
  english_name (BrandSamples.info cn en) en.
Proof.
  exists [PDict [("name", cn); ("country", PStr "CN")]],
    (PDict [("name", en); ("country", PStr "EN")]), [].
  split_and!; [done| |by constructor|done|done].
  apply Forall_cons. split.
  - exists [("name", cn); ("country", PStr "CN")], (PStr "CN").
    by split_and!.
  - apply Forall_cons. split; [|by constructor].
    exists [("name", en); ("country", PStr "EN")], (PStr "EN").
    split_and!; [done..|]. intros _. by exists en.
Qed.

Lemma sample_brand_ok (brandid deviceid : Z) (cn en : string) :
  brand_ok (BrandSamples.brand brandid deviceid cn en)
    (brandid, PStr en, PInt deviceid).
Proof.
  eexists _, (BrandSamples.info (PStr cn) (PStr en)).
  split_and!; [reflexivity | reflexivity | | reflexivity | reflexivity].
  apply sample_info_english.
Qed.

Lemma sample_device_ok (deviceid : Z) (cn en : string) :
  device_ok (BrandSamples.device deviceid cn en) (deviceid, en).
Proof.
  eexists _, (BrandSamples.info (PStr cn) (PStr en)).
  split_and!; [reflexivity | reflexivity | | reflexivity].
  apply sample_info_english.
Qed.

Lemma brand_samples_ok :
  Forall2 brand_ok
    [BrandSamples.akira; BrandSamples.toshiba; BrandSamples.akira_again]
    [(1973, PStr "Akira", PInt 1); (64, PStr "Toshiba", PInt 1);
     (1973, PStr "Akira/Projector", PInt 10)].
Proof.
  do 3 (apply Forall2_cons; split; [apply sample_brand_ok|]).
  constructor.
Qed.

Lemma load_brand_list_last_brand_wins_witness :
  exists brands,
    load_brand_list
      (BrandSamples.list_file "brands"
         [BrandSamples.akira; BrandSamples.toshiba; BrandSamples.akira_again])
    = Ok brands
    /\ (forall before id name device_id after,
          [(1973, PStr "Akira", PInt 1); (64, PStr "Toshiba", PInt 1);
           (1973, PStr "Akira/Projector", PInt 10)]
          = before ++ (id, name, device_id) :: after ->
          id ∉ (fun row => row.1.1) <$> after ->
          table_lookup (PInt id) brands
          = Some (PDict [("name", name); ("deviceid", device_id)]))
    /\ (forall id,
          id ∉ (fun row : Z * pyval * pyval => row.1.1)
               <$> [(1973, PStr "Akira", PInt 1); (64, PStr "Toshiba", PInt 1);
                    (1973, PStr "Akira/Projector", PInt 10)] ->
          table_lookup (PInt id) brands = None)
    /\ (length brands <= 3)%nat.
Proof.
  apply (load_brand_list_last_brand_wins
           (BrandSamples.list_file "brands"
              [BrandSamples.akira; BrandSamples.toshiba;
               BrandSamples.akira_again])
           (PDict [("status", PInt 0);
                   ("data", PList [BrandSamples.akira; BrandSamples.toshiba;
                                   BrandSamples.akira_again]);
                   ("encoding", PStr "UTF-8")])
           [BrandSamples.akira; BrandSamples.toshiba;
            BrandSamples.akira_again]);
    [reflexivity | reflexivity | exact brand_samples_ok].
Defined.

(** X4.  [load_brand_list] assumes that the English name is always set:
    for a brand whose ["info"] items have their keys and none of which is
    of country ["EN"], coming after brands that are sound, the subscript
    [[0]] of the empty comprehension raises [IndexError], and no dict is
    returned for the whole list. *)
Theorem brand_without_english_name_raises
    (filename : json_file) (json_filedata : pyval)
    (before after : list pyval) (rows : list (Z * pyval * pyval))
    (d : dict) (items : list pyval) :
  read_json filename = Ok json_filedata ->
  getitem json_filedata "data" = Ok (PList (before ++ PDict d :: after)) ->
  Forall2 brand_ok before rows ->
  dict_lookup "info" d = Some (PList items) ->
  Forall info_item_ok items ->
  Forall (fun item => is_en item = false) items ->
  load_brand_list filename = Err (Raised "IndexError").
Proof.
  intros Hread Hdata Hrows Hinfo Hok Hnone.
  unfold load_brand_list. rewrite Hread. cbn [mbind result_bind].
  rewrite Hdata. cbn [mbind result_bind iterate].
  apply (table_loop_abort brand_entry before after (PDict d)
           ((fun row : Z * pyval * pyval =>
               (row.1.1, PDict [("name", row.1.2); ("deviceid", row.2)]))
              <$> rows)).
  - apply Forall2_fmap_r. eapply Forall2_impl; [exact Hrows|].
    intros brand row Hbrand. by apply brand_entry_ok.
  - unfold brand_entry, getitem. rewrite Hinfo. cbn [mbind result_bind].
    by rewrite (en_name_missing _ Hok Hnone).
Qed.

Lemma brand_without_english_name_raises_witness :
  load_brand_list
    (BrandSamples.list_file "brands"
       ([BrandSamples.akira] ++ BrandSamples.unnamed :: [BrandSamples.toshiba]))
  = Err (Raised "IndexError").
Proof.
  eapply (brand_without_english_name_raises _ _
            [BrandSamples.akira] [BrandSamples.toshiba]
            [(1973, PStr "Akira", PInt 1)]);
    [reflexivity | reflexivity | | reflexivity | |].
  - apply Forall2_cons; split; [apply sample_brand_ok | constructor].
  - apply Forall_cons; split; [|constructor].
    eexists _, (PStr "CN"). split_and!; [reflexivity | reflexivity | done].
  - apply Forall_cons; split; [reflexivity | constructor].
Defined.

Lemma en_names_missing_country
    (good rest : list pyval) (bad : dict) :
  Forall info_item_ok good ->
  dict_lookup "country" bad = None ->
  en_names (good ++ PDict bad :: rest) = Err (KeyError "country").
Proof.
  intros Hgood Hbad.
  induction Hgood as [|item good (d & country & -> & Hc & Hname) _ IH].
  - cbn [app en_names]. unfold getitem. by rewrite Hbad.
  - cbn [app en_names]. rewrite (proj2 (getitem_dict _ _ _) Hc).
    cbn [mbind result_bind].
    destruct (str_equal "EN" country) eqn:Hen; [|exact IH].
    destruct (Hname eq_refl) as [name Hn].
    rewrite (proj2 (getitem_dict _ _ _) Hn). cbn [mbind result_bind].
    by rewrite IH.
Qed.

(** X6.  The comprehension that selects the English name reads the
    country of every item of ["info"], also of those that come after the
    English one: a brand with an item without ["country"], whatever its
    place among items that have their keys, makes [load_brand_list] raise
    [KeyError('country')], after brands that are sound. *)
Theorem info_item_without_country_raises
    (filename : json_file) (json_filedata : pyval)
    (before after : list pyval) (rows : list (Z * pyval * pyval))
    (d bad : dict) (good rest : list pyval) :
  read_json filename = Ok json_filedata ->
  getitem json_filedata "data" = Ok (PList (before ++ PDict d :: after)) ->
  Forall2 brand_ok before rows ->
  dict_lookup "info" d = Some (PList (good ++ PDict bad :: rest)) ->
  Forall info_item_ok good ->
  dict_lookup "country" bad = None ->
  load_brand_list filename = Err (KeyError "country").
Proof.
  intros Hread Hdata Hrows Hinfo Hgood Hbad.
  unfold load_brand_list. rewrite Hread. cbn [mbind result_bind].
  rewrite Hdata. cbn [mbind result_bind iterate].
  apply (table_loop_abort brand_entry before after (PDict d)
           ((fun row : Z * pyval * pyval =>
               (row.1.1, PDict [("name", row.1.2); ("deviceid", row.2)]))
              <$> rows)).
  - apply Forall2_fmap_r. eapply Forall2_impl; [exact Hrows|].
    intros brand row Hbrand. by apply brand_entry_ok.
  - unfold brand_entry, getitem. rewrite Hinfo. cbn [mbind result_bind].
    unfold en_name. cbn [iterate mbind result_bind].
    by rewrite (en_names_missing_country good rest bad Hgood Hbad).
Qed.

Lemma info_item_without_country_raises_witness :
  load_brand_list
    (BrandSamples.list_file "brands"
       ([BrandSamples.akira] ++ BrandSamples.half_named :: []))
  = Err (KeyError "country").
Proof.
  eapply (info_item_without_country_raises _ _
            [BrandSamples.akira] [] [(1973, PStr "Akira", PInt 1)] _
            [("name", PStr "suoni")]
            [PDict [("name", PStr "Sony"); ("country", PStr "EN")]] []);
    [reflexivity | reflexivity | | reflexivity | | reflexivity].
  - apply Forall2_cons; split; [apply sample_brand_ok | constructor].
  - apply Forall_cons; split; [|constructor].
    eexists _, (PStr "EN"). split_and!; [reflexivity | reflexivity |].
    intros _. by eexists.
Defined.

(** ** load_devices *)

Lemma replace_slash_free (s : string) :
  substringb "/" (replace_char "/" "_" s) = false.
Proof.
  induction s as [|c s IH]; [done|].
  cbn [replace_char substringb]. rewrite IH, orb_false_r.
  destruct (Ascii.eqb_spec c "/") as [->|Hc]; [done|].
  cbn [String.prefix]. destruct (ascii_dec "/" c) as [<-|_]; done.
Qed.

(** A value of the dict of [load_devices]: a name without ["/"]. *)
Lemma device_entry_value (json_device : pyval) (kv : pyval * pyval) :
  device_entry json_device = Ok kv ->
  exists s, kv.2 = PDict [("name", PStr s)] /\ substringb "/" s = false.
Proof.
  unfold device_entry. intros H.
  apply bind_Ok_inv in H as (info & _ & H).
  apply bind_Ok_inv in H as (device_name & _ & H).
  apply bind_Ok_inv in H as (device_id & _ & H).
  apply bind_Ok_inv in H as (name & Hname & H).
  injection H as <-. destruct device_name; try discriminate.
  injection Hname as <-.
  eexists. split; [done|]. apply replace_slash_free.
Qed.

Lemma table_set_values (P : pyval -> Prop) (k v : pyval) (t : table) :
  P v -> Forall (fun kv => P kv.2) t ->
  Forall (fun kv => P kv.2) (table_set k v t).
Proof.
  intros Hv. induction 1 as [|[k' w] t Hw Ht IH]; cbn [table_set].
  - by repeat constructor.
  - destruct (key_equal k k'); constructor; done.
Qed.

Lemma table_loop_values
    (entry : pyval -> result (pyval * pyval)) (P : pyval -> Prop)
    (elems : list pyval) (t t' : table) :
  (forall elem kv, entry elem = Ok kv -> P kv.2) ->
  Forall (fun kv => P kv.2) t ->
  table_loop entry elems t = Ok t' ->
  Forall (fun kv => P kv.2) t'.
Proof.
  intros Hentry. revert t.
  induction elems as [|elem elems IH]; intros t Ht H; cbn [table_loop] in H.
  - by injection H as <-.
  - bind_inv H. bind_inv H. unfold setitem in Ha0.
    destruct (hashable a.1); [|done]. injection Ha0 as <-.
    eapply IH; [|exact H]. apply table_set_values; [|done].
    by eapply Hentry.
Qed.

(** X2.  Whatever the file, every value of the dict that [load_devices]
    returns is a dict with the single key ["name"], bound to a string in
    which ["/"] does not occur: the names can be used in paths. *)
Theorem load_devices_names_without_slash
    (filename : json_file) (devices : table) :
  load_devices filename = Ok devices ->
  Forall (fun kv =>
            exists s, kv.2 = PDict [("name", PStr s)]
                      /\ substringb "/" s = false) devices.
Proof.
  unfold load_devices. intros H. do 3 bind_inv H.
  eapply (table_loop_values device_entry
            (fun v => exists s, v = PDict [("name", PStr s)]
                                /\ substringb "/" s = false));
    [|constructor|exact H].
  intros elem kv Hkv. by apply (device_entry_value elem).
Qed.

Lemma load_devices_names_without_slash_witness :
  Forall (fun kv =>
            exists s, kv.2 = PDict [("name", PStr s)]
                      /\ substringb "/" s = false)
    [(PInt 1, PDict [("name", PStr "TV")]);
     (PInt 10, PDict [("name", PStr "Box_Projector")])].
Proof.
  apply (load_devices_names_without_slash
           (BrandSamples.list_file "devices"
              [BrandSamples.device 1 "dianshi" "TV";
               BrandSamples.device 10 "touying" "Box/Projector"])).
  reflexivity.
Defined.

(** X3.  For a list of devices that have an integer id and an English
    name that is a string, [load_devices] returns a dict in which every
    device id is bound to [{"name": n}], [n] being the English name of
    the last device of the list with that id, every ["/"] replaced by
    ["_"]; no other integer is a key. *)
Theorem load_devices_last_device_wins
    (filename : json_file) (json_filedata : pyval)
    (json_devices : list pyval) (rows : list (Z * string)) :
  read_json filename = Ok json_filedata ->
  getitem json_filedata "data" = Ok (PList json_devices) ->
  Forall2 device_ok json_devices rows ->
  exists devices,
    load_devices filename = Ok devices
    /\ (forall before id name after,
          rows = before ++ (id, name) :: after ->
          id ∉ after.*1 ->
          table_lookup (PInt id) devices
          = Some (PDict [("name", PStr (replace_char "/" "_" name))]))
    /\ (forall id, id ∉ rows.*1 -> table_lookup (PInt id) devices = None).
Proof.
  intros Hread Hdata Hrows.
  set (kv := fun row : Z * string =>
               (row.1, PDict [("name", PStr (replace_char "/" "_" row.2))])).
  exists (assign_all [] (kv <$> rows)).
  assert (Hkeys : forall l : list (Z * string), (kv <$> l).*1 = l.*1).
  { intros l. by rewrite <- list_fmap_compose. }
  split_and!.
  - unfold load_devices. rewrite Hread. cbn [mbind result_bind].
    rewrite Hdata. cbn [mbind result_bind iterate].
    apply table_loop_assign. apply Forall2_fmap_r.
    eapply Forall2_impl; [exact Hrows|].
    intros json_device row Hok. by apply device_entry_ok.
  - intros before id name after -> Hid.
    rewrite fmap_app, fmap_cons.
    apply assign_all_lookup_last; [constructor|]. by rewrite Hkeys.
  - intros id Hid.
    rewrite assign_all_lookup_other; [done|constructor|]. by rewrite Hkeys.
Qed.

Lemma load_devices_last_device_wins_witness :
  exists devices,
    load_devices
      (BrandSamples.list_file "devices"
         [BrandSamples.device 1 "dianshi" "TV";
          BrandSamples.device 10 "touying" "Box/Projector"])
    = Ok devices
    /\ (forall before id name after,
          [(1, "TV"); (10, "Box/Projector")] = before ++ (id, name) :: after ->
          id ∉ after.*1 ->
          table_lookup (PInt id) devices
          = Some (PDict [("name", PStr (replace_char "/" "_" name))]))
    /\ (forall id,
          id ∉ [(1, "TV"); (10, "Box/Projector")].*1 ->
          table_lookup (PInt id) devices = None).
Proof.
  eapply (load_devices_last_device_wins _ _
            [BrandSamples.device 1 "dianshi" "TV";
             BrandSamples.device 10 "touying" "Box/Projector"]);
    [reflexivity | reflexivity |].
  do 2 (apply Forall2_cons; split; [apply sample_device_ok|]). constructor.
Defined.

(** X5.  [load_devices] needs names that are strings: for a device whose
    English name is any other value (a number, [None]) and which has a
    ["deviceid"], coming after devices that are sound, the call of
    [.replace] raises [AttributeError] and no dict is returned. *)
Theorem device_name_not_string_raises
    (filename : json_file) (json_filedata : pyval)
    (before after : list pyval) (rows : list (Z * string))
    (d : dict) (info name device_id : pyval) :
  read_json filename = Ok json_filedata ->
  getitem json_filedata "data" = Ok (PList (before ++ PDict d :: after)) ->
  Forall2 device_ok before rows ->
  dict_lookup "info" d = Some info ->
  english_name info name ->
  (forall s, name <> PStr s) ->
  dict_lookup "deviceid" d = Some device_id ->
  load_devices filename = Err AttributeError.
Proof.
  intros Hread Hdata Hrows Hinfo Hname Hstr Hid.
  unfold load_devices. rewrite Hread. cbn [mbind result_bind].
  rewrite Hdata. cbn [mbind result_bind iterate].
  apply (table_loop_abort device_entry before after (PDict d)
           ((fun row : Z * string =>
               (row.1, PDict [("name", PStr (replace_char "/" "_" row.2))]))
              <$> rows)).
  - apply Forall2_fmap_r. eapply Forall2_impl; [exact Hrows|].
    intros json_device row Hok. by apply device_entry_ok.
  - unfold device_entry, getitem. rewrite Hinfo, Hid.
    cbn [mbind result_bind]. rewrite (en_name_english _ _ Hname).
    cbn [mbind result_bind]. destruct name; try done. by destruct (Hstr s).
Qed.

Lemma device_name_not_string_raises_witness :
  load_devices
    (BrandSamples.list_file "devices"
       ([BrandSamples.device 1 "dianshi" "TV"] ++ BrandSamples.numbered :: []))
  = Err AttributeError.
Proof.
  eapply (device_name_not_string_raises _ _
            [BrandSamples.device 1 "dianshi" "TV"] [] [(1, "TV")] _
            (BrandSamples.info (PStr "san") (PInt 3)) (PInt 3) (PInt 3));
    [reflexivity | reflexivity | | reflexivity | | discriminate | reflexivity].
  - apply Forall2_cons; split; [apply sample_device_ok | constructor].
  - apply sample_info_english.
Defined.

(** ** The batch of build_patterns *)

(** X9.  [build_patterns] handles the models one after the other and
    keeps nothing from one to the next: the result for a batch cut in
    two is the result for the first part followed by the result for the
    second part, and when the first part raises, the second part is not
    looked at. *)
Theorem build_patterns_app
    (decrypt : pyval -> result pyval) (models1 models2 : list pyval) :
  build_patterns decrypt (models1 ++ models2) =
    match build_patterns decrypt models1 with
    | (log1, Ok ps1) =>
        (log1 ++ (build_patterns decrypt models2).1,
         (fun ps2 => ps1 ++ ps2) <$> (build_patterns decrypt models2).2)
    | (log1, Err e) => (log1, Err e)
    end.
Proof.
  induction models1 as [|m models1 IH].
  - cbn [app]. unfold build_patterns at 2. cbn [build_patterns_loop app].
    destruct (build_patterns decrypt models2) as [log [ps|e]]; done.
  - cbn [app]. rewrite !build_patterns_cons.
    destruct (build_model decrypt m []) as [logm [psm|e]]; [|done].
    rewrite IH.
    destruct (build_patterns decrypt models1) as [log1 [ps1|e]];
      cbn [fst snd fmap result_fmap]; [|done].
    destruct (build_patterns decrypt models2) as [log2 [ps2|e]];
      cbn [fst snd fmap result_fmap]; by rewrite <- !app_assoc.
Qed.

(** What one turn of the loop gives when no exception is raised: a log
    record and no Pattern for a false frequency, no record and one or
    two Patterns with that frequency otherwise. *)
Lemma build_model_cases
    (decrypt : pyval -> result pyval) (model : pyval)
    (log : list log_record) (ps : list pyval) :
  build_model decrypt model [] = (log, Ok ps) ->
  (false_frequency model = true /\ log = [InvalidFrequency model] /\ ps = [])
  \/ (false_frequency model = false /\ log = []
      /\ Forall sound_pattern ps
      /\ (1 <= length ps <= 2)%nat).
Proof.
  unfold build_model, false_frequency.
  destruct (getitem model "frequency") as [frequency|e]; [|done].
  destruct (truthy frequency) eqn:Htrue; cbn [negb].
  - intros [= <- H]. right. do 2 (split; [done|]). split.
    + apply bind_Ok_inv in H as (p & Hp & H).
      assert (sound_pattern p) as Hsound.
      { unfold primary_pattern in Hp. do 6 bind_inv Hp. injection Hp as <-.
        by eexists _, _, _, _, _. }
      apply bind_Ok_inv in H as ([] & _ & H).
      * apply bind_Ok_inv in H as (q & Hq & H). injection H as <-.
        unfold reverse_pattern in Hq. do 7 bind_inv Hq. injection Hq as <-.
        repeat constructor; [done|]. by eexists _, _, _, _, _.
      * injection H as <-. by repeat constructor.
    + apply bind_Ok_inv in H as (p & _ & H).
      apply bind_Ok_inv in H as ([] & _ & H).
      * apply bind_Ok_inv in H as (q & _ & H). injection H as <-. cbn. lia.
      * injection H as <-. cbn. lia.
  - intros [= <- <-]. by left.
Qed.

(** The log of a batch, whatever its outcome. *)
Lemma build_patterns_log_prefix
    (decrypt : pyval -> result pyval) (models : list pyval) :
  (build_patterns decrypt models).1
    `prefix_of` (InvalidFrequency <$> List.filter false_frequency models).
Proof.
  induction models as [|m models IH]; [by exists []|].
  rewrite build_patterns_cons. cbn [List.filter].
  destruct (build_model decrypt m []) as [logm [psm|e]] eqn:Hm.
  - cbn [fst].
    destruct (build_model_cases _ _ _ _ Hm)
      as [(-> & -> & _) | (-> & -> & _)]; cbn [app]; [|done].
    rewrite fmap_cons. by apply prefix_cons.
  - cbn [fst]. unfold build_model in Hm. unfold false_frequency.
    destruct (getitem m "frequency") as [frequency|e'].
    + destruct (truthy frequency); cbn [negb] in *; [|done].
      injection Hm as <- _. apply prefix_nil.
    + injection Hm as <- _. apply prefix_nil.
Qed.

(** X8.  The log of [build_patterns] holds the models with a false
    frequency and nothing else, in the order of the batch: it is always
    a prefix of the list of these models, and the whole list when no
    exception is raised. *)
Theorem build_patterns_logs_false_frequencies
    (decrypt : pyval -> result pyval) (models : list pyval) :
  (build_patterns decrypt models).1
    `prefix_of` (InvalidFrequency <$> List.filter false_frequency models)
  /\ (forall ps,
        (build_patterns decrypt models).2 = Ok ps ->
        (build_patterns decrypt models).1
        = InvalidFrequency <$> List.filter false_frequency models).
Proof.
  split; [apply build_patterns_log_prefix|].
  induction models as [|m models IH]; intros ps; [done|].
  rewrite build_patterns_cons. cbn [List.filter].
  destruct (build_model decrypt m []) as [logm [psm|e]] eqn:Hm; [|done].
  cbn [fst snd].
  destruct (build_patterns decrypt models) as [log [qs|e]] eqn:Hrest;
    cbn [fst snd fmap result_fmap] in *; [|done].
  intros _. rewrite (IH qs eq_refl).
  by destruct (build_model_cases _ _ _ _ Hm)
    as [(-> & -> & _) | (-> & -> & _)].
Qed.

(** X7.  When [build_patterns] returns, every element of the list is a
    Pattern whose frequency is true (never [0] nor [None]), and every
    model of the batch is accounted for: it is logged, or it gave one or
    two Patterns. *)
Theorem build_patterns_returns_sound_patterns
    (decrypt : pyval -> result pyval) (models : list pyval)
    (log : list log_record) (ps : list pyval) :
  build_patterns decrypt models = (log, Ok ps) ->
  Forall sound_pattern ps
  /\ (length log <= length models)%nat
  /\ (length models - length log <= length ps
      <= 2 * (length models - length log))%nat.
Proof.
  revert log ps. induction models as [|m models IH]; intros log ps H.
  - injection H as <- <-. cbn. split_and!; [constructor|lia..].
  - rewrite build_patterns_cons in H.
    destruct (build_model decrypt m []) as [logm [psm|e]] eqn:Hm; [|done].
    destruct (build_patterns decrypt models) as [log' [qs|e]] eqn:Hrest;
      cbn [fst snd fmap result_fmap] in H; [|done].
    injection H as <- <-.
    destruct (IH log' qs eq_refl) as (Hqs & Hlog & Hlen).
    rewrite !length_app. cbn [length].
    destruct (build_model_cases _ _ _ _ Hm)
      as [(_ & -> & ->) | (_ & -> & Hps & Hone)]; cbn [length app].
    + split_and!; [done|lia..].
    + split_and!; [by apply Forall_app|lia..].
Qed.

Lemma build_patterns_returns_sound_patterns_witness :
  Forall sound_pattern
    [Samples.pattern (PStr "power") 37990 "QJPmll3";
     PPattern (PStr "xxx") (PInt 37000) (PList [PStr "xm_1_199"])
       (PStr "mi") (PStr "power");
     PPattern (PStr "xxr") (PInt 37000) (PList [PStr "xm_1_199"])
       (PStr "mi") (PStr "power_r")]
  /\ (1 <= 3)%nat
  /\ (3 - 1 <= 3 <= 2 * (3 - 1))%nat.
Proof.
  apply (build_patterns_returns_sound_patterns (Samples.decrypt_but "!!")
           [Samples.flat_power; Samples.flat_zero; Samples.flat_reverse "xxr"]
           [InvalidFrequency Samples.flat_zero]).
  reflexivity.
Defined.

(** ** The fields of a Pattern *)

(** X10.  For a model with a true frequency and a primary code that
    decrypts and without the key ["ir_zip_key_r"], [build_patterns]
    emits exactly one Pattern, in its place in the batch.  Its model id
    is the ["_id"] of the model when it has one, its ["keysetids"]
    otherwise, [None] when it has neither; its vendor is the ["source"]
    of the model, ["mi"] when it has none; its name is the ["id"] of the
    model, of any type, [None] when it has none. *)
Theorem single_code_yields_one_pattern
    (decrypt : pyval -> result pyval) (before after : list pyval)
    (d : dict) (frequency code ir_code : pyval)
    (log1 log2 : list log_record) (ps1 ps2 : list pyval) :
  dict_lookup "frequency" d = Some frequency ->
  truthy frequency = true ->
  dict_lookup "ir_zip_key" d = Some code ->
  decrypt code = Ok ir_code ->
  dict_lookup "ir_zip_key_r" d = None ->
  build_patterns decrypt before = (log1, Ok ps1) ->
  build_patterns decrypt after = (log2, Ok ps2) ->
  build_patterns decrypt (before ++ PDict d :: after)
  = (log1 ++ log2,
     Ok (ps1
         ++ [PPattern ir_code frequency
               (match dict_lookup "_id" d, dict_lookup "keysetids" d with
                | Some model_id, _ => model_id
                | None, Some keysetids => keysetids
                | None, None => PNone
                end)
               (match dict_lookup "source" d with
                | Some source => source
                | None => PStr "mi"
                end)
               (match dict_lookup "id" d with
                | Some id => id
                | None => PNone
                end)]
         ++ ps2)).
Proof.
  intros Hfreq Htrue Hcode Hclear Hrev Hbefore Hafter.
  apply (build_patterns_through decrypt before after (PDict d)
           log1 [] log2 ps1 _ ps2); [done| |done].
  unfold build_model, primary_pattern, getitem, contains, get.
  rewrite Hfreq, Htrue, Hcode, Hrev. cbn [negb mbind result_bind].
  rewrite Hclear. cbn [mbind result_bind mret result_ret].
  by destruct (dict_lookup "_id" d), (dict_lookup "keysetids" d),
    (dict_lookup "source" d), (dict_lookup "id" d).
Qed.

Lemma single_code_yields_one_pattern_witness :
  build_patterns (Samples.decrypt_but "!!")
    ([Samples.flat_zero]
     ++ PDict [("_id", PStr "kk_1_64_3445"); ("id", PInt 7);
               ("ir_zip_key", PStr "B1"); ("frequency", PInt 38000);
               ("keysetids", PList [PStr "xm_1_199"]); ("source", PStr "kk")]
     :: [])
  = ([InvalidFrequency Samples.flat_zero] ++ [],
     Ok ([] ++ [PPattern (PStr "B1") (PInt 38000) (PStr "kk_1_64_3445")
                  (PStr "kk") (PInt 7)] ++ [])).
Proof.
  apply (single_code_yields_one_pattern (Samples.decrypt_but "!!")
           [Samples.flat_zero] []
           [("_id", PStr "kk_1_64_3445"); ("id", PInt 7);
            ("ir_zip_key", PStr "B1"); ("frequency", PInt 38000);
            ("keysetids", PList [PStr "xm_1_199"]); ("source", PStr "kk")]
           (PInt 38000) (PStr "B1") (PStr "B1"));
    reflexivity.
Defined.

(** X11.  The name of the reverse Pattern is built with [+ '_r']: a
    model with a reverse code whose ["id"] is neither a string nor
    [None] (a number, say), both codes decrypting, makes
    [build_patterns] raise [TypeError] after the primary Pattern was
    built, and no Pattern is returned for the batch; without the reverse
    code the same name is accepted. *)
Theorem reverse_code_with_unnamed_type_raises
    (decrypt : pyval -> result pyval) (before after : list pyval)
    (d : dict) (frequency code code_r ir_code ir_code_r name : pyval)
    (log1 : list log_record) (ps1 : list pyval) :
  dict_lookup "frequency" d = Some frequency ->
  truthy frequency = true ->
  dict_lookup "ir_zip_key" d = Some code ->
  decrypt code = Ok ir_code ->
  dict_lookup "ir_zip_key_r" d = Some code_r ->
  decrypt code_r = Ok ir_code_r ->
  dict_lookup "id" d = Some name ->
  name <> PNone ->
  (forall s, name <> PStr s) ->
  build_patterns decrypt before = (log1, Ok ps1) ->
  build_patterns decrypt (before ++ PDict d :: after) = (log1, Err TypeError).
Proof.
  intros Hfreq Htrue Hcode Hclear Hrev Hclear_r Hid Hnone Hstr Hbefore.
  rewrite <- (app_nil_r log1).
  apply (build_patterns_abort decrypt before after (PDict d) log1 [] ps1);
    [done|].
  unfold build_model, primary_pattern, reverse_pattern, getitem, contains, get.
  rewrite Hfreq, Htrue, Hcode, Hrev, Hid. cbn [negb mbind result_bind].
  rewrite Hclear, Hclear_r. cbn [mbind result_bind mret result_ret default].
  destruct name; try done. by destruct (Hstr s).
Qed.

Lemma reverse_code_with_unnamed_type_raises_witness :
  build_patterns (Samples.decrypt_but "!!")
    ([Samples.flat_power]
     ++ PDict [("id", PInt 7); ("ir_zip_key", PStr "xxx");
               ("ir_zip_key_r", PStr "xxr"); ("frequency", PInt 37000)]
     :: [Samples.flat_power])
  = ([], Err TypeError).
Proof.
  apply (reverse_code_with_unnamed_type_raises (Samples.decrypt_but "!!")
           [Samples.flat_power] [Samples.flat_power]
           [("id", PInt 7); ("ir_zip_key", PStr "xxx");
            ("ir_zip_key_r", PStr "xxr"); ("frequency", PInt 37000)]
           (PInt 37000) (PStr "xxx") (PStr "xxr") (PStr "xxx") (PStr "xxr")
           (PInt 7) [] [Samples.pattern (PStr "power") 37990 "QJPmll3"]);
    first [reflexivity | discriminate].
Defined.

(** ** The models of load_brand_codes *)

Lemma other_buttons_shape (json_model buttons : pyval) :
  other_buttons json_model = Ok buttons ->
  exists bs, buttons = PList bs /\ Forall button_shape bs.
Proof.
  unfold other_buttons. intros H.
  apply bind_Ok_inv in H as (key & _ & H).
  apply bind_Ok_inv in H as (pairs & _ & H).
  apply bind_Ok_inv in H as (bs & Hbs & H). injection H as <-.
  exists bs. split; [done|].
  revert bs Hbs. induction pairs as [|[name ircode] pairs IH]; intros bs Hbs.
  - injection Hbs as <-. constructor.
  - cbn in Hbs. apply bind_Ok_inv in Hbs as (b & Hb & Hbs).
    apply bind_Ok_inv in Hbs as (bs' & Hbs' & Hbs). injection Hbs as <-.
    constructor; [|by apply IH].
    apply bind_Ok_inv in Hb as (frequency & _ & Hb). injection Hb as <-.
    exists (PStr name), ircode, frequency. by left.
Qed.

Lemma parse_others_loop_schema
    (section : list pyval) (yielded : list (pyval * pyval)) :
  parse_others_loop section = Ok yielded ->
  Forall model_schema (map other_model yielded)
  /\ length yielded = length section.
Proof.
  revert yielded. induction section as [|other section IH]; intros yielded H.
  - injection H as <-. split; [constructor|done].
  - cbn [parse_others_loop] in H.
    apply bind_Ok_inv in H as (buttons & Hbuttons & H).
    apply bind_Ok_inv in H as (source & _ & H).
    apply bind_Ok_inv in H as (more & Hmore & H). injection H as <-.
    destruct (IH more Hmore) as [Hall Hlen].
    destruct (other_buttons_shape _ _ Hbuttons) as (bs & -> & Hbs).
    split; [|cbn; by rewrite Hlen].
    cbn [map other_model]. constructor; [|done].
    exists bs, "source", source. auto.
Qed.

Lemma tree_model_schema (json_model model : pyval) :
  tree_model json_model = Ok model ->
  model_schema model /\ has_code json_model = true.
Proof.
  unfold tree_model. intros H.
  apply bind_Ok_inv in H as (keyid & _ & H).
  apply bind_Ok_inv in H as (code & Hcode & H).
  apply bind_Ok_inv in H as (frequency & _ & H).
  apply bind_Ok_inv in H as (reverse_code & _ & H).
  apply bind_Ok_inv in H as (keysetids & _ & H). injection H as <-.
  split.
  - eexists _, "keysetids", keysetids. split; [done|]. split; [by right|].
    constructor; [|constructor]. exists keyid, code, frequency.
    destruct (truthy reverse_code) eqn:Htrue; [right|by left].
    by exists reverse_code.
  - apply getitem_Ok_dict in Hcode as (d & -> & Hd). cbn. by rewrite Hd.
Qed.

(** A node on which the test of the loop is false is not a node with a
    code. *)
Lemma contains_false_has_code (json_model : pyval) :
  contains "ir_zip_key" json_model = Ok false -> has_code json_model = false.
Proof.
  destruct json_model; cbn; try done.
  by destruct (dict_lookup "ir_zip_key" d).
Qed.

Lemma tree_loop_schema (nodes models : list pyval) :
  tree_loop nodes [] = Ok models ->
  Forall model_schema models
  /\ length models = length (List.filter has_code nodes).
Proof.
  revert models. induction nodes as [|node nodes IH]; intros models H.
  - injection H as <-. split; [constructor|done].
  - cbn [tree_loop] in H. apply bind_Ok_inv in H as ([] & Hcode & H);
      cbn [negb] in H.
    + apply bind_Ok_inv in H as (model & Hmodel & H).
      rewrite tree_loop_app in H.
      destruct (tree_loop nodes []) as [more|e]; [|done].
      injection H as <-.
      destruct (IH more eq_refl) as [Hall Hlen].
      destruct (tree_model_schema _ _ Hmodel) as [Hschema Hhas].
      cbn [List.filter]. rewrite Hhas. cbn. split; [|by rewrite Hlen].
      by constructor.
    + cbn [List.filter]. rewrite (contains_false_has_code _ Hcode).
      by apply IH.
Qed.

(** X12.  Whatever the file, every model that [load_brand_codes] returns
    is a dict with exactly two keys: ["buttons"], a list of buttons, then
    ["source"] (a model of the "others" section) or ["keysetids"] (a
    model of the tree, which has exactly one button).  Every button is a
    dict with the keys ["id"], ["ir_zip_key"] and ["frequency"], in that
    order, followed by ["ir_zip_key_r"] only with a value that is true:
    an empty or null reverse code is never stored. *)
Theorem load_brand_codes_returns_schema
    (filename : json_file) (models : list pyval) :
  load_brand_codes filename = Ok models -> Forall model_schema models.
Proof.
  unfold load_brand_codes. intros H.
  apply bind_Ok_inv in H as (json_filedata & _ & H).
  rewrite load_brand_codes_json_halves in H.
  apply bind_Ok_inv in H as (others & Hothers & H).
  apply bind_Ok_inv in H as (more & Htree & H). injection H as <-.
  apply Forall_app. split.
  - unfold others_models in Hothers.
    apply bind_Ok_inv in Hothers as (data & _ & Hothers).
    apply bind_Ok_inv in Hothers as ([] & _ & Hothers).
    + apply bind_Ok_inv in Hothers as (data' & _ & Hothers).
      apply bind_Ok_inv in Hothers as (section & _ & Hothers).
      apply bind_Ok_inv in Hothers as (yielded & Hyielded & Hothers).
      injection Hothers as <-. unfold parse_others_section in Hyielded.
      apply bind_Ok_inv in Hyielded as (elems & _ & Hyielded).
      by apply (parse_others_loop_schema elems).
    + injection Hothers as <-. constructor.
  - unfold tree_models in Htree.
    apply bind_Ok_inv in Htree as (data & _ & Htree).
    apply bind_Ok_inv in Htree as (tree & _ & Htree).
    apply bind_Ok_inv in Htree as ([] & _ & Htree); cbn [negb] in Htree.
    + apply bind_Ok_inv in Htree as (key & _ & Htree).
      destruct (is_none key); [|done].
      apply bind_Ok_inv in Htree as (json_models & _ & Htree).
      apply bind_Ok_inv in Htree as (nodes & _ & Htree).
      by apply (tree_loop_schema nodes).
    + injection Htree as <-. constructor.
Qed.

Lemma load_brand_codes_returns_schema_witness :
  Forall model_schema
    [Samples.model_3445; Samples.model_power; Samples.model_reverse].
Proof.
  apply (load_brand_codes_returns_schema
           (Samples.file "sony" Samples.doc_full)).
  reflexivity.
Defined.

(** X13.  For a document with an "others" list and a tree without key
    whose nodes are a list, whenever [load_brand_codes] returns, the
    number of models is the number of entries of the "others" list plus
    the number of nodes that are dicts with the key ["ir_zip_key"]: no
    entry and no such node is dropped or counted twice. *)
Theorem load_brand_codes_counts_models
    (filename : json_file) (json_filedata : pyval) (data tree : dict)
    (section nodes models : list pyval) :
  read_json filename = Ok json_filedata ->
  getitem json_filedata "data" = Ok (PDict data) ->
  dict_lookup "others" data = Some (PList section) ->
  dict_lookup "tree" data = Some (PDict tree) ->
  dict_lookup "seceret_key" tree = Some PNone ->
  dict_lookup "nodes" tree = Some (PList nodes) ->
  load_brand_codes filename = Ok models ->
  length models
  = (length section + length (List.filter has_code nodes))%nat.
Proof.
  intros Hread Hdata Hothers Htree Hkey Hnodes H.
  unfold load_brand_codes in H. rewrite Hread in H.
  cbn [mbind result_bind] in H.
  rewrite load_brand_codes_json_halves in H.
  unfold others_models, tree_models in H. rewrite Hdata in H.
  cbn [mbind result_bind getitem contains] in H.
  rewrite Hothers, Htree in H.
  cbn [mbind result_bind getitem contains parse_others_section iterate] in H.
  rewrite Hkey, Hnodes in H.
  cbn [mbind result_bind negb is_none iterate] in H.
  apply bind_Ok_inv in H as (others & Ho & H).
  apply bind_Ok_inv in Ho as (yielded & Hyielded & Ho). injection Ho as <-.
  apply bind_Ok_inv in H as (more & Hmore & H). injection H as <-.
  rewrite length_app, length_map.
  destruct (parse_others_loop_schema _ _ Hyielded) as [_ ->].
  by destruct (tree_loop_schema _ _ Hmore) as [_ ->].
Qed.

Lemma load_brand_codes_counts_models_witness :
  length [Samples.model_3445; Samples.model_power; Samples.model_reverse]
  = (length [Samples.other_3445]
     + length (List.filter has_code
                 [Samples.root_node; Samples.power_node;
                  Samples.reverse_node]))%nat.
Proof.
  apply (load_brand_codes_counts_models
           (Samples.file "sony" Samples.doc_full) Samples.doc_full
           [("tree", Samples.tree PNone);
            ("others", PList [Samples.other_3445])]
           [("seceret_key", PNone);
            ("nodes", PList [Samples.root_node; Samples.power_node;
                             Samples.reverse_node])]);
    reflexivity.
Defined.

(** ** All the files of a directory *)

Lemma dir_loop_all_load
    (files : list json_file) (total : nat) (models : gmap string (list pyval)) :
  Forall loads files ->
  exists models',
    dir_loop files total models
    = (printed_loaded files,
       Ok ((total + sum_list (models_loaded <$> files))%nat, models')).
Proof.
  intros Hloads. revert total models.
  induction Hloads as [|f files [ms Hf] _ IH]; intros total models.
  - exists models. cbn. by rewrite Nat.add_0_r.
  - cbn [dir_loop]. rewrite Hf.
    destruct (IH (total + length ms)%nat (<[stem f := ms]> models))
      as (models' & ->).
    exists models'. rewrite fmap_cons.
    cbn [printed_loaded flat_map app sum_list sum_list_with].
    replace (models_loaded f) with (length ms)
      by (unfold models_loaded; by rewrite Hf).
    do 3 f_equal. unfold id. lia.
Qed.

Lemma dir_loop_Ok_loads
    (files : list json_file) (total : nat) (models : gmap string (list pyval))
    (out : list output) (r : nat * gmap string (list pyval)) :
  dir_loop files total models = (out, Ok r) -> Forall loads files.
Proof.
  revert total models out. induction files as [|f files IH];
    intros total models out H; [constructor|].
  cbn [dir_loop] in H.
  destruct (load_brand_codes f) as [ms|e] eqn:Hf; [|done].
  destruct (dir_loop files (total + length ms)%nat (<[stem f := ms]> models))
    as [out' [r'|e]] eqn:Hrest; [|done].
  injection H as _ <-.
  constructor; [by exists ms | by eapply IH].
Qed.

(** X14.  [load_brand_codes_from_dir] is all or nothing: it returns a
    mapping exactly when [load_brand_codes] returns for every file of
    the directory (an exception on one file is never caught, whatever
    the file and the exception); and when it returns, it has printed,
    for each file in order, the name of the file and the number of the
    models that [load_brand_codes] returns for it, and then the total of
    these numbers, and nothing else. *)
Theorem load_brand_codes_from_dir_all_or_nothing
    (directory : list json_file) :
  ((exists models, (load_brand_codes_from_dir directory).2 = Ok models)
   <-> Forall loads directory)
  /\ (forall models,
        (load_brand_codes_from_dir directory).2 = Ok models ->
        (load_brand_codes_from_dir directory).1
        = printed_loaded directory
          ++ [PrintTotal (sum_list (models_loaded <$> directory))]).
Proof.
  unfold load_brand_codes_from_dir. split; [split|].
  - intros [models H].
    destruct (dir_loop directory 0%nat ∅) as [out [[total ms]|e]] eqn:Hloop;
      [|done].
    by eapply dir_loop_Ok_loads.
  - intros Hloads.
    destruct (dir_loop_all_load directory 0%nat ∅ Hloads) as (ms & ->).
    by exists ms.
  - intros models H.
    destruct (dir_loop directory 0%nat ∅) as [out [[total ms]|e]] eqn:Hloop;
      [|done].
    pose proof (dir_loop_Ok_loads _ _ _ _ _ Hloop) as Hloads.
    destruct (dir_loop_all_load directory 0%nat ∅ Hloads) as (ms' & Hloop').
    rewrite Hloop in Hloop'. by injection Hloop' as -> -> _.
Qed.

Lemma load_brand_codes_from_dir_all_or_nothing_witness :
  (load_brand_codes_from_dir
     [Samples.file "sony" Samples.doc_full;
      Samples.file "akai" Samples.doc_tree]).1
  = [PrintFile "brands/sony.json"; PrintLen 3;
     PrintFile "brands/akai.json"; PrintLen 2; PrintTotal 5].
Proof.
  eapply (proj2 (load_brand_codes_from_dir_all_or_nothing
                   [Samples.file "sony" Samples.doc_full;
                    Samples.file "akai" Samples.doc_tree])).
  reflexivity.
Defined.
